(** * Index provisioning for the compliance agent

    A shallow embedding of [src/elasticsearch_setup/setup_indices.py]:
    the [ElasticsearchSetup] class, its constructor and its four
    operations, over an explicit model of the process environment, the
    schema directory and the remote cluster. *)

From Stdlib Require Import Ascii String.
From stdpp Require Import gmap strings list fin_maps.

Local Open Scope string_scope.
Local Open Scope list_scope.

(** ** Values *)

(** The documents [json.load] returns.  An object keeps its members in
    file order, as a Python [dict] does. *)
#[local] Unset Elimination Schemes.
Inductive json : Type :=
  | JNull
  | JBool (b : bool)
  | JNum (n : Z)
  | JStr (s : string)
  | JArr (items : list json)
  | JObj (members : list (string * json)).
#[local] Set Elimination Schemes.

(** Keyword arguments of an index-creation call: the members of the
    schema object, passed through unmodified. *)
Abbreviation kwargs := (list (string * json)).

(** What a path of the schema directory holds: text that [json.load]
    rejects, or a document. *)
Inductive file : Type :=
  | Unparsable
  | Document (doc : json).

(** The [api_key] argument handed to the client: a plain [str] or a
    two-element tuple. *)
Inductive credential : Type :=
  | Bearer (token : string)
  | KeyPair (id secret : string).

(** The exceptions the script can meet.  [SystemExit] is the only one
    that is not a subclass of [Exception]. *)
Inductive exn : Type :=
  | ValueError (msg : string)
  | IndexError
  | TypeError
  | FileNotFoundError (path : string)
  | JSONDecodeError (path : string)
  | TransportError
  | BadRequestError (index : string)
  | NotFoundError (index : string)
  | SystemExit (code : Z).

Definition is_Exception (e : exn) : bool :=
  match e with
  | SystemExit _ => false
  | _ => true
  end.

(** ** Logging *)

Inductive level : Type := INFO | WARNING | ERROR.

(** One constructor per format string of the script, carrying the
    interpolated values. *)
Inductive message : Type :=
  | MsgConnected (version : string)
  | MsgConnectFailed (e : exn)
  | MsgSchemaNotFound (schema_path : string)
  | MsgAlreadyExists (index_name : string)
  | MsgCreated (index_name : string)
  | MsgCreateFailed (index_name : string) (e : exn)
  | MsgStarting
  | MsgCreating
  | MsgAllCreated
  | MsgSomeFailed
  | MsgCurrentIndices
  | MsgIndexLine (index_name : string)
  | MsgListFailed (e : exn)
  | MsgDeleted (index_name : string)
  | MsgDeleteFailed (e : exn)
  | MsgSetupFailed (e : exn).

(** ** Requests sent to the cluster *)

Inductive request : Type :=
  | ReqInfo
  | ReqExists (index : string)
  | ReqCreate (index : string) (body : kwargs)
  | ReqGet (pattern : string)
  | ReqDelete (index : string).

Definition is_create (r : request) : bool :=
  match r with ReqCreate _ _ => true | _ => false end.

(** ** The world the script runs in

    - [environ]: the process environment after [load_dotenv];
    - [files]: the file system, by path;
    - [cluster]: the indices of the remote cluster, by name, each with
      the body it was created from;
    - [cluster_version]: the version number the cluster reports;
    - [faults]: one entry per request still to come; [true] makes that
      request raise [TransportError] (unreachable host, rejected
      credentials, rejected body) and leave the cluster as it was;
      past the end of the list requests go through;
    - [requests]: every request issued so far, oldest first;
    - [log]: every line logged so far, oldest first. *)
Record World : Type := mkWorld {
  environ : gmap string string;
  files : gmap string file;
  cluster : gmap string kwargs;
  cluster_version : string;
  faults : list bool;
  requests : list request;
  log : list (level * message)
}.

Definition set_cluster (c : gmap string kwargs) (w : World) : World :=
  mkWorld (environ w) (files w) c (cluster_version w) (faults w)
          (requests w) (log w).

Definition add_log (l : level) (m : message) (w : World) : World :=
  mkWorld (environ w) (files w) (cluster w) (cluster_version w) (faults w)
          (requests w) (log w ++ [(l, m)]).

Definition add_request (r : request) (w : World) : World :=
  mkWorld (environ w) (files w) (cluster w) (cluster_version w)
          (tail (faults w)) (requests w ++ [r]) (log w).

(** ** Exceptions and state: the monad of the script *)

Inductive outcome (A : Type) : Type :=
  | Ok (a : A)
  | Raise (e : exn).
Arguments Ok {A} a.
Arguments Raise {A} e.

Definition M (A : Type) : Type := World -> outcome A * World.

Definition ret {A} (a : A) : M A := fun w => (Ok a, w).

Definition raise {A} (e : exn) : M A := fun w => (Raise e, w).

Definition bind {A B} (m : M A) (k : A -> M B) : M B :=
  fun w =>
    match m w with
    | (Ok a, w') => k a w'
    | (Raise e, w') => (Raise e, w')
    end.

Notation "'let!' x ':=' m 'in' k" := (bind m (fun x => k))
  (at level 10, x name, m at level 200, k at level 200,
   format "'[v' 'let!'  x  ':='  m  'in' '/' k ']'").
Notation "'run!' m 'in' k" := (bind m (fun _ => k))
  (at level 10, m at level 200, k at level 200,
   format "'[v' 'run!'  m  'in' '/' k ']'").

(** [try: body except Exception as e: handler e].  What the body did
    before it raised stays done. *)
Definition try_except {A} (body : M A) (handler : exn -> M A) : M A :=
  fun w =>
    match body w with
    | (Ok a, w') => (Ok a, w')
    | (Raise e, w') =>
        if is_Exception e then handler e w' else (Raise e, w')
    end.

(** [for x in xs: body], with the variables the body assigns threaded
    through as [v]. *)
Fixpoint for_in {A V} (xs : list A) (body : A -> V -> M V) (v : V) : M V :=
  match xs with
  | [] => ret v
  | x :: xs' => let! v' := body x v in for_in xs' body v'
  end.

(** ** The standard library and the logger *)

Definition os_getenv (name : string) : M (option string) :=
  fun w => (Ok (environ w !! name), w).

Definition logger_info (m : message) : M unit :=
  fun w => (Ok tt, add_log INFO m w).

Definition logger_warning (m : message) : M unit :=
  fun w => (Ok tt, add_log WARNING m w).

Definition logger_error (m : message) : M unit :=
  fun w => (Ok tt, add_log ERROR m w).

(** Truth value of a [str]: only the empty one is false. *)
Definition py_bool (s : string) : bool :=
  match s with
  | EmptyString => false
  | String _ _ => true
  end.

(** [c in s] for a one-character [c]. *)
Fixpoint contains (c : Ascii.ascii) (s : string) : bool :=
  match s with
  | EmptyString => false
  | String a s' => if decide (a = c) then true else contains c s'
  end.

(** [s.split(c)] for a one-character separator. *)
Fixpoint split (c : Ascii.ascii) (s : string) : list string :=
  match s with
  | EmptyString => [EmptyString]
  | String a s' =>
      if decide (a = c) then EmptyString :: split c s'
      else match split c s' with
           | [] => [String a EmptyString]
           | piece :: pieces => String a piece :: pieces
           end
  end.

(** [xs[i]] *)
Definition getitem {A} (xs : list A) (i : nat) : M A :=
  match xs !! i with
  | Some x => ret x
  | None => raise IndexError
  end.

(** [Path / str], for a relative right operand. *)
Definition path_join (dir name : string) : string :=
  dir +:+ "/" +:+ name.

Definition path_exists (p : string) : M bool :=
  fun w => (Ok (bool_decide (is_Some (files w !! p))), w).

(** [with open(p, "r") as f: json.load(f)] *)
Definition json_load (p : string) : M json :=
  fun w =>
    match files w !! p with
    | None => (Raise (FileNotFoundError p), w)
    | Some Unparsable => (Raise (JSONDecodeError p), w)
    | Some (Document doc) => (Ok doc, w)
    end.

(** [**schema]: only a mapping unpacks into keyword arguments. *)
Definition unpack (schema : json) : M kwargs :=
  match schema with
  | JObj members => ret members
  | _ => raise TypeError
  end.

(** ** The client library *)

Record client : Type := mkClient {
  hosts : list string;
  api_key : credential
}.

(** Every call of the client sends one request; the head of [faults]
    decides whether it comes back. *)
Definition perform (r : request) : M unit :=
  fun w =>
    match faults w with
    | true :: _ => (Raise TransportError, add_request r w)
    | _ => (Ok tt, add_request r w)
    end.

Definition es_info (es : client) : M string :=
  run! perform ReqInfo in
  fun w => (Ok (cluster_version w), w).

Definition es_indices_exists (es : client) (index : string) : M bool :=
  run! perform (ReqExists index) in
  fun w => (Ok (bool_decide (is_Some (cluster w !! index))), w).

Definition es_indices_create (es : client) (index : string) (body : kwargs)
  : M unit :=
  run! perform (ReqCreate index body) in
  fun w =>
    match cluster w !! index with
    | Some _ => (Raise (BadRequestError index), w)
    | None => (Ok tt, set_cluster (<[index := body]> (cluster w)) w)
    end.

(** The script only ever asks for the pattern ["*"]; any other
    pattern is taken as one index name. *)
Definition es_indices_get (es : client) (pattern : string)
  : M (gmap string kwargs) :=
  run! perform (ReqGet pattern) in
  fun w =>
    if decide (pattern = "*") then (Ok (cluster w), w)
    else match cluster w !! pattern with
         | Some body => (Ok {[pattern := body]}, w)
         | None => (Raise (NotFoundError pattern), w)
         end.

Definition es_indices_delete (es : client) (index : string) : M unit :=
  run! perform (ReqDelete index) in
  fun w =>
    match cluster w !! index with
    | Some _ => (Ok tt, set_cluster (delete index (cluster w)) w)
    | None => (Raise (NotFoundError index), w)
    end.

(** [dict.keys()] *)
Definition keys {V} (d : gmap string V) : list string :=
  (map_to_list d).*1.

(** ** The class [ElasticsearchSetup] *)

Record Self : Type := mkSelf {
  es_url : string;
  es_api_key : string;
  es : client;
  indices_dir : string
}.

(** Directory of the module, [Path(__file__).parent]. *)
Definition module_dir : string := "src/elasticsearch_setup".

Definition config_error : exn :=
  ValueError "ELASTICSEARCH_URL and ELASTICSEARCH_API_KEY must be set in .env".

Section Construction.

(** The client's own check of a node URL (scheme, host and port),
    made when the client object is built.  It belongs to the client
    library, not to this repository. *)
Variable node_url_accepted : string -> bool.

(** [Elasticsearch(hosts, api_key=...)]: builds the client object;
    nothing is sent before the first call on it. *)
Definition Elasticsearch (hs : list string) (key : credential) : M client :=
  if forallb node_url_accepted hs then ret (mkClient hs key)
  else raise (ValueError "URL must include a 'scheme', 'host', and 'port' component").

(** [ElasticsearchSetup.__init__]: [not x] holds of [None] and of
    the empty string. *)
Definition __init__ : M Self :=
  let! es_url := os_getenv "ELASTICSEARCH_URL" in
  let! es_api_key := os_getenv "ELASTICSEARCH_API_KEY" in
  match es_url, es_api_key with
  | Some es_url, Some es_api_key =>
      if negb (py_bool es_url) || negb (py_bool es_api_key) then
        raise config_error
      else
        let! key :=
          (if contains ":"%char es_api_key then
             let! id := getitem (split ":"%char es_api_key) 0 in
             let! secret := getitem (split ":"%char es_api_key) 1 in
             ret (KeyPair id secret)
           else ret (Bearer es_api_key)) in
        let! es := Elasticsearch [es_url] key in
        ret (mkSelf es_url es_api_key es (path_join module_dir "indices"))
  | _, _ => raise config_error
  end.

End Construction.

Definition test_connection (self : Self) : M bool :=
  try_except
    (let! number := es_info (es self) in
     run! logger_info (MsgConnected number) in
     ret true)
    (fun e =>
     run! logger_error (MsgConnectFailed e) in
     ret false).

Definition create_index (self : Self) (index_name schema_file : string)
  : M bool :=
  try_except
    (let schema_path := path_join (indices_dir self) schema_file in
     let! found := path_exists schema_path in
     if negb found then
       run! logger_error (MsgSchemaNotFound schema_path) in
       ret false
     else
       let! schema := json_load schema_path in
       let! present := es_indices_exists (es self) index_name in
       if present then
         run! logger_warning (MsgAlreadyExists index_name) in
         ret true
       else
         let! body := unpack schema in
         run! es_indices_create (es self) index_name body in
         run! logger_info (MsgCreated index_name) in
         ret true)
    (fun e =>
     run! logger_error (MsgCreateFailed index_name e) in
     ret false).

(** The [indices] dictionary of [setup_all_indices], in insertion
    order. *)
Definition index_schemas : list (string * string) :=
  [("regulations", "regulations.json");
   ("permits", "permits.json");
   ("inspections", "inspections.json");
   ("compliance_events", "compliance_events.json")].

Definition setup_all_indices (self : Self) : M bool :=
  let indices := index_schemas in
  run! logger_info MsgStarting in
  let! connected := test_connection self in
  if negb connected then ret false
  else
    run! logger_info MsgCreating in
    let! all_success :=
      for_in indices
        (fun item all_success =>
           let! created := create_index self item.1 item.2 in
           if negb created then ret false else ret all_success)
        true in
    run! (if all_success then logger_info MsgAllCreated
          else logger_error MsgSomeFailed) in
    ret all_success.

Definition list_indices (self : Self) : M unit :=
  try_except
    (let! indices := es_indices_get (es self) "*" in
     run! logger_info MsgCurrentIndices in
     for_in (keys indices)
       (fun index_name _ => logger_info (MsgIndexLine index_name)) tt)
    (fun e => logger_error (MsgListFailed e)).

(** The [indices] list of [delete_all_indices]. *)
Definition index_names : list string :=
  ["regulations"; "permits"; "inspections"; "compliance_events"].

Definition delete_all_indices (self : Self) : M unit :=
  let indices := index_names in
  try_except
    (for_in indices
       (fun index_name _ =>
          let! present := es_indices_exists (es self) index_name in
          if present then
            run! es_indices_delete (es self) index_name in
            logger_info (MsgDeleted index_name)
          else ret tt)
       tt)
    (fun e => logger_error (MsgDeleteFailed e)).

(** [main]: [exit(1)] raises [SystemExit], which no handler of the
    script catches. *)
Definition main (node_url_accepted : string -> bool) : M unit :=
  try_except
    (let! setup := __init__ node_url_accepted in
     run! setup_all_indices setup in
     list_indices setup)
    (fun e =>
     run! logger_error (MsgSetupFailed e) in
     raise (SystemExit 1)).

(** * Vocabulary of the statements

    Worlds to run the script in, the requests sent between two
    worlds, and the case tables the operations are proved equal to. *)

(** The next request goes through. *)
Definition next_ok (w : World) : Prop := head (faults w) ≠ Some true.

(** No request to come is faulty. *)
Definition quiet (w : World) : Prop := Forall (λ b, b = false) (faults w).

(** The outcome of [create_index], by the state of the schema file,
    of the next requests and of the cluster. *)
Definition create_index_result (self : Self) (index_name schema_file : string)
    (w : World) : outcome bool * World :=
  let schema_path := path_join (indices_dir self) schema_file in
  let failed e := add_log ERROR (MsgCreateFailed index_name e) in
  match files w !! schema_path with
  | None => (Ok false, add_log ERROR (MsgSchemaNotFound schema_path) w)
  | Some Unparsable => (Ok false, failed (JSONDecodeError schema_path) w)
  | Some (Document doc) =>
      let w1 := add_request (ReqExists index_name) w in
      match head (faults w) with
      | Some true => (Ok false, failed TransportError w1)
      | _ =>
          match cluster w !! index_name, doc with
          | Some _, _ =>
              (Ok true, add_log WARNING (MsgAlreadyExists index_name) w1)
          | None, JObj body =>
              let w2 := add_request (ReqCreate index_name body) w1 in
              match head (faults w1) with
              | Some true => (Ok false, failed TransportError w2)
              | _ =>
                  (Ok true,
                   add_log INFO (MsgCreated index_name)
                     (set_cluster (<[index_name := body]> (cluster w)) w2))
              end
          | None, _ => (Ok false, failed TypeError w1)
          end
      end
  end.

(** The outcome of [test_connection]: it turns on the next request
    alone. *)
Definition test_connection_result (w : World) : outcome bool * World :=
  let w1 := add_request ReqInfo w in
  match head (faults w) with
  | Some true =>
      (Ok false, add_log ERROR (MsgConnectFailed TransportError) w1)
  | _ => (Ok true, add_log INFO (MsgConnected (cluster_version w)) w1)
  end.

(** The directory the constructor stores in [indices_dir]. *)
Definition schema_dir : string := path_join module_dir "indices".

(** An instance as the constructor builds it from an [id:secret] key. *)
Definition a_self : Self :=
  mkSelf "https://localhost:9200" "id:secret"
    (mkClient ["https://localhost:9200"] (KeyPair "id" "secret"))
    schema_dir.

(** The members of a small schema object. *)
Definition a_schema : kwargs :=
  [("mappings", JObj [("dynamic", JStr "strict")])].

(** A schema directory in which each of the four files is present
    exactly when its flag is set. *)
Definition some_schemas (r1 r2 r3 r4 : bool) : gmap string file :=
  let put (r : bool) (name : string) (fs : gmap string file) :=
    if r then <[path_join schema_dir name := Document (JObj a_schema)]> fs
    else fs in
  put r1 "regulations.json"
    (put r2 "permits.json"
       (put r3 "inspections.json"
          (put r4 "compliance_events.json" ∅))).

(** A reachable cluster holding the given indices, nothing sent or
    logged yet. *)
Definition start (fs : gmap string file) (c : gmap string kwargs) : World :=
  mkWorld ∅ fs c "8.11.0" [] [] [].

(** The requests one successful creation sends. *)
Definition creation (r : bool) (name : string) : list request :=
  if r then [ReqExists name; ReqCreate name a_schema] else [].

(** The requests sent between two worlds of one run. *)
Definition issued (w w' : World) : list request :=
  drop (length (requests w)) (requests w').

(** The credential the constructor derives from a key that contains a
    colon: the text before the first colon and the text between the
    first colon and the second one, if any. *)
Definition pair_of_key (key : string) : credential :=
  match split ":" key with
  | id :: secret :: _ => KeyPair id secret
  | _ => Bearer key
  end.

(** A process environment holding the two variables. *)
Definition configured (url key : string) : World :=
  mkWorld {[ "ELASTICSEARCH_URL" := url; "ELASTICSEARCH_API_KEY" := key ]}
    ∅ ∅ "8.11.0" [] [] [].

(** The body of the loop of [delete_all_indices]. *)
Definition delete_step (self : Self) (index_name : string) (_ : unit)
  : M unit :=
  let! present := es_indices_exists (es self) index_name in
  if present then
    run! es_indices_delete (es self) index_name in
    logger_info (MsgDeleted index_name)
  else ret tt.

(** The outcome of one turn of that loop. *)
Definition delete_step_result (index_name : string) (w : World)
  : outcome unit * World :=
  let w1 := add_request (ReqExists index_name) w in
  match head (faults w) with
  | Some true => (Raise TransportError, w1)
  | _ =>
      match cluster w !! index_name with
      | None => (Ok tt, w1)
      | Some _ =>
          let w2 := add_request (ReqDelete index_name) w1 in
          match head (faults w1) with
          | Some true => (Raise TransportError, w2)
          | _ =>
              (Ok tt,
               add_log INFO (MsgDeleted index_name)
                 (set_cluster (delete index_name (cluster w)) w2))
          end
      end
  end.

(** What a stretch of the deletion loop over the names [l] may have
    done between [w] and [w']: the requests it added are existence
    checks of names of [l] and deletions of names of [l] that were in
    the cluster at [w]; the lines it logged report deletions; indices
    outside [l] are as they were and no index appeared. *)
Definition trail (l : list string) (w w' : World) : Prop :=
  (∃ rs, requests w' = requests w ++ rs ∧
         ∀ r, r ∈ rs →
              ∃ n, n ∈ l ∧
                   (r = ReqExists n ∨
                    r = ReqDelete n ∧ is_Some (cluster w !! n))) ∧
  (∃ ls, log w' = log w ++ ls ∧
         ∀ e, e ∈ ls → ∃ n, n ∈ l ∧ e = (INFO, MsgDeleted n)) ∧
  (∀ m, m ∉ l → cluster w' !! m = cluster w !! m) ∧
  (∀ m, is_Some (cluster w' !! m) → is_Some (cluster w !! m)).

(** A cluster that holds the last two of the four indices and whose
    second request fails. *)
Definition flaky : World :=
  mkWorld ∅ ∅ {[ "inspections" := a_schema; "compliance_events" := a_schema ]}
    "8.11.0" [false; true] [] [].

(** Several lines logged at once. *)
Definition add_logs (ls : list (level * message)) (w : World) : World :=
  mkWorld (environ w) (files w) (cluster w) (cluster_version w) (faults w)
          (requests w) (log w ++ ls).

(** The lines [list_indices] logs for the given names. *)
Definition index_lines (names : list string) : list (level * message) :=
  (λ n, (INFO, MsgIndexLine n)) <$> names.

(** The outcome of [list_indices]. *)
Definition list_indices_result (w : World) : outcome unit * World :=
  let w1 := add_request (ReqGet "*") w in
  match head (faults w) with
  | Some true => (Ok tt, add_log ERROR (MsgListFailed TransportError) w1)
  | _ =>
      (Ok tt,
       add_logs ((INFO, MsgCurrentIndices) :: index_lines (keys (cluster w)))
         w1)
  end.


(** A cluster that cannot be reached. *)
Definition unreachable : World := mkWorld ∅ ∅ ∅ "8.11.0" [true] [] [].

(** The cluster already holds permits; all four schema files are
    there. *)
Definition provisioned : World :=
  start (some_schemas true true true true) {[ "permits" := a_schema ]}.

(** Only the schema of permits is there, and it does not parse. *)
Definition garbled : World :=
  start {[ path_join schema_dir "permits.json" := Unparsable ]}
        {[ "permits" := a_schema ]}.


(** The world in which the loop of [setup_all_indices] starts when the
    cluster answered the connectivity check. *)
Definition connected (w : World) : World :=
  add_log INFO MsgCreating
    (add_log INFO (MsgConnected (cluster_version w))
       (add_request ReqInfo (add_log INFO MsgStarting w))).

(** The schema of permits is a JSON array, not an object. *)
Definition listed (c : gmap string kwargs) : World :=
  start {[ path_join schema_dir "permits.json" := Document (JArr [JNum 1]) ]}
        c.

(** All four schema files are there; the cluster answers the existence
    check and refuses the creation call that follows. *)
Definition refusing : World :=
  mkWorld ∅ (some_schemas true true true true) ∅ "8.11.0" [false; true]
    [] [].

(** A configured environment in front of a cluster that answers
    nothing. *)
Definition configured_down : World :=
  mkWorld {[ "ELASTICSEARCH_URL" := "https://localhost:9200";
             "ELASTICSEARCH_API_KEY" := "id:secret" ]}
    ∅ ∅ "8.11.0" [true; true] [] [].

(** The world after [create_index] created the index from [body]. *)
Definition created (index_name : string) (body : kwargs) (w : World)
  : World :=
  add_log INFO (MsgCreated index_name)
    (set_cluster (<[index_name := body]> (cluster w))
       (add_request (ReqCreate index_name body)
          (add_request (ReqExists index_name) w))).

(** The world after the existence of each name of [l] was checked. *)
Definition probed (l : list string) (w : World) : World :=
  foldl (λ w' n, add_request (ReqExists n) w') w l.


(** Nothing of the four in the cluster, one unrelated index, all four
    schema files there. *)
Definition unprovisioned : World :=
  start (some_schemas true true true true) {[ "audit_log" := a_schema ]}.


(** * Properties *)

(** ** Unfolding the monad *)

Ltac unfold_monad :=
  unfold logger_info, logger_warning, logger_error, os_getenv, path_exists,
    json_load, unpack, getitem, es_info, es_indices_exists,
    es_indices_create, es_indices_delete, es_indices_get;
  unfold perform; unfold try_except, bind, ret, raise.

Lemma quiet_next_ok w : quiet w → next_ok w.
Proof.
  unfold quiet, next_ok. destruct (faults w) as [|[] fs]; simpl; try done.
  intros H. by inversion H.
Qed.

Lemma quiet_add_request r w : quiet w → quiet (add_request r w).
Proof.
  unfold quiet. simpl. destruct (faults w); simpl; [done|].
  intros H. by inversion H.
Qed.

Lemma perform_ok r w : next_ok w → perform r w = (Ok tt, add_request r w).
Proof.
  unfold next_ok, perform. destruct (faults w) as [|[] fs]; simpl; done.
Qed.

Lemma perform_fault r w :
  head (faults w) = Some true →
  perform r w = (Raise TransportError, add_request r w).
Proof.
  unfold perform. destruct (faults w) as [|[] fs]; simpl; done.
Qed.

(** ** What one call of [create_index] does, case by case *)

Lemma create_index_cases self index_name schema_file w :
  create_index self index_name schema_file w
  = create_index_result self index_name schema_file w.
Proof.
  unfold create_index, create_index_result.
  unfold_monad.
  destruct (files w !! path_join (indices_dir self) schema_file)
    as [[|doc]|] eqn:Hfile; simpl; rewrite ?Hfile; simpl; [done| |done].
  destruct (faults w) as [|[] fs] eqn:Hf; simpl; [|done|];
    (destruct (cluster w !! index_name) eqn:Hc; simpl; [done|]);
    (destruct doc; simpl; try done); rewrite ?Hf; simpl.
  - by rewrite Hc.
  - destruct fs as [|[] fs']; simpl; by rewrite ?Hc.
Qed.

Lemma bind_ok {A B} (m : M A) (k : A → M B) w a w' :
  m w = (Ok a, w') → bind m k w = k a w'.
Proof. unfold bind. by intros ->. Qed.

Lemma bind_raise {A B} (m : M A) (k : A → M B) w e w' :
  m w = (Raise e, w') → bind m k w = (Raise e, w').
Proof. unfold bind. by intros ->. Qed.

Lemma create_index_total self index_name schema_file w :
  ∃ b w', create_index self index_name schema_file w = (Ok b, w').
Proof.
  rewrite create_index_cases. unfold create_index_result.
  repeat (case_match; simpl); eauto.
Qed.

Lemma test_connection_cases self w :
  test_connection self w = test_connection_result w.
Proof.
  unfold test_connection, test_connection_result. unfold_monad.
  destruct (faults w) as [|[] fs]; simpl; done.
Qed.

Lemma issued_app w w' rs : requests w' = requests w ++ rs → issued w w' = rs.
Proof. unfold issued. intros ->. by rewrite drop_app_length. Qed.

(** ** Frame and progress of one creation *)

Lemma create_index_frame self name schema_file w :
  let out := create_index self name schema_file w in
  files out.2 = files w ∧
  (∀ m, m ≠ name → cluster out.2 !! m = cluster w !! m) ∧
  (∀ b, cluster w !! name = Some b → cluster out.2 !! name = Some b).
Proof.
  simpl. rewrite create_index_cases. unfold create_index_result.
  repeat (case_match; simpl; simplify_eq); split_and!; try done;
    try (intros; congruence).
  all: intros m Hm; by apply lookup_insert_ne.
Qed.

Lemma create_index_keeps self name schema_file w w' o m b :
  create_index self name schema_file w = (o, w') →
  cluster w !! m = Some b → cluster w' !! m = Some b.
Proof.
  intros Hrun Hb.
  pose proof (create_index_frame self name schema_file w) as (_ & F & G).
  rewrite Hrun in F, G. simpl in F, G.
  destruct (decide (m = name)) as [-> | Hne]; [by apply G|by rewrite F].
Qed.


Lemma setup_all_indices_down self w :
  head (faults w) = Some true →
  setup_all_indices self w
  = (Ok false,
     add_log ERROR (MsgConnectFailed TransportError)
       (add_request ReqInfo (add_log INFO MsgStarting w))).
Proof.
  intros Hf. unfold setup_all_indices.
  rewrite (bind_ok _ _ w tt (add_log INFO MsgStarting w)) by done.
  erewrite bind_ok; last first.
  { rewrite test_connection_cases. unfold test_connection_result.
    simpl faults. rewrite Hf. reflexivity. }
  done.
Qed.

Lemma setup_all_indices_chain self w wc b1 b2 b3 b4 w1 w2 w3 w4 :
  test_connection self (add_log INFO MsgStarting w) = (Ok true, wc) →
  create_index self "regulations" "regulations.json"
    (add_log INFO MsgCreating wc) = (Ok b1, w1) →
  create_index self "permits" "permits.json" w1 = (Ok b2, w2) →
  create_index self "inspections" "inspections.json" w2 = (Ok b3, w3) →
  create_index self "compliance_events" "compliance_events.json" w3
    = (Ok b4, w4) →
  setup_all_indices self w
  = (Ok (b1 && b2 && b3 && b4),
     if b1 && b2 && b3 && b4 then add_log INFO MsgAllCreated w4
     else add_log ERROR MsgSomeFailed w4).
Proof.
  intros Htc H1 H2 H3 H4.
  unfold setup_all_indices, index_schemas.
  rewrite (bind_ok _ _ w tt (add_log INFO MsgStarting w)) by done.
  rewrite (bind_ok _ _ _ _ _ Htc). cbn [negb].
  rewrite (bind_ok _ _ wc tt (add_log INFO MsgCreating wc)) by done.
  simpl for_in. unfold bind at 1. unfold bind at 1.
  unfold bind at 1. simpl fst; simpl snd. rewrite H1.
  destruct b1; simpl; unfold bind at 1; unfold bind at 1; rewrite H2;
    destruct b2; simpl; unfold bind at 1; unfold bind at 1; rewrite H3;
    destruct b3; simpl; unfold bind at 1; unfold bind at 1; rewrite H4;
    destruct b4; simpl; done.
Qed.


(** ** Provisioning the four indices *)

(** C1. After a successful connectivity check, [setup_all_indices]
    runs [create_index] on regulations, permits, inspections and
    compliance_events in this order, each call starting from the world
    the previous one left whatever that one returned, and it returns the
    conjunction of the four results: true if and only if all four are
    true.  Every assignment of results occurs: with each schema file
    present or missing at will, the indices whose file is present are
    all created, also those after a missing one, and the aggregate is
    the conjunction. *)
Theorem setup_all_indices_conjunction self w
    (Hconn : (test_connection self (add_log INFO MsgStarting w)).1 = Ok true) :
  (∃ b1 b2 b3 b4 w0 w1 w2 w3 w4,
      w0 = add_log INFO MsgCreating
             (test_connection self (add_log INFO MsgStarting w)).2 ∧
      create_index self "regulations" "regulations.json" w0 = (Ok b1, w1) ∧
      create_index self "permits" "permits.json" w1 = (Ok b2, w2) ∧
      create_index self "inspections" "inspections.json" w2 = (Ok b3, w3) ∧
      create_index self "compliance_events" "compliance_events.json" w3
        = (Ok b4, w4) ∧
      setup_all_indices self w
        = (Ok (b1 && b2 && b3 && b4),
           if b1 && b2 && b3 && b4 then add_log INFO MsgAllCreated w4
           else add_log ERROR MsgSomeFailed w4) ∧
      ((setup_all_indices self w).1 = Ok true ↔
       b1 = true ∧ b2 = true ∧ b3 = true ∧ b4 = true)) ∧
  (∀ r1 r2 r3 r4 : bool,
      let out := setup_all_indices a_self (start (some_schemas r1 r2 r3 r4) ∅) in
      out.1 = Ok (r1 && r2 && r3 && r4) ∧
      requests out.2
        = ReqInfo :: creation r1 "regulations" ++ creation r2 "permits"
            ++ creation r3 "inspections" ++ creation r4 "compliance_events" ∧
      bool_decide (is_Some (cluster out.2 !! "regulations")) = r1 ∧
      bool_decide (is_Some (cluster out.2 !! "permits")) = r2 ∧
      bool_decide (is_Some (cluster out.2 !! "inspections")) = r3 ∧
      bool_decide (is_Some (cluster out.2 !! "compliance_events")) = r4).
Proof.
  split.
  - destruct (test_connection self (add_log INFO MsgStarting w))
      as [c wc] eqn:Htc. simpl in Hconn. subst c.
    set (w0 := add_log INFO MsgCreating wc).
    destruct (create_index_total self "regulations" "regulations.json" w0)
      as (b1 & w1 & H1).
    destruct (create_index_total self "permits" "permits.json" w1)
      as (b2 & w2 & H2).
    destruct (create_index_total self "inspections" "inspections.json" w2)
      as (b3 & w3 & H3).
    destruct (create_index_total self "compliance_events"
                "compliance_events.json" w3) as (b4 & w4 & H4).
    pose proof (setup_all_indices_chain _ _ _ _ _ _ _ _ _ _ _ Htc H1 H2 H3 H4)
      as Hrun.
    exists b1, b2, b3, b4, w0, w1, w2, w3, w4.
    split_and!; try done.
    rewrite Hrun. simpl. split.
    + intros [= Hb]. destruct b1, b2, b3, b4; done.
    + by intros (-> & -> & -> & ->).
  - intros [] [] [] []; vm_compute; done.
Qed.

(** C3. When the connectivity check fails, [setup_all_indices] returns
    false having sent the info request and nothing else: no existence
    check, no creation call, the cluster as it was, and no line of
    [create_index] in the log. *)
Theorem setup_aborts_when_unreachable self w
    (Hdown : (test_connection self w).1 = Ok false) :
  let out := setup_all_indices self w in
  out.1 = Ok false ∧
  issued w out.2 = [ReqInfo] ∧
  filter is_create (issued w out.2) = [] ∧
  cluster out.2 = cluster w ∧
  log out.2
    = log w ++ [(INFO, MsgStarting);
                (ERROR, MsgConnectFailed TransportError)].
Proof.
  rewrite test_connection_cases in Hdown.
  unfold test_connection_result in Hdown.
  assert (Hf : head (faults w) = Some true).
  { destruct (head (faults w)) as [[]|]; simpl in Hdown; congruence. }
  pose proof (setup_all_indices_down self w Hf) as Hrun.
  simpl. rewrite Hrun. simpl.
  assert (Hi : issued w
     (add_log ERROR (MsgConnectFailed TransportError)
        (add_request ReqInfo (add_log INFO MsgStarting w))) = [ReqInfo])
    by (by apply issued_app).
  rewrite Hi. split_and!; try done.
  by rewrite <- app_assoc.
Qed.

(** C6. When the schema file of an index is absent, [create_index]
    logs the error and returns false; nothing is sent to the cluster,
    neither the existence check nor a creation call. *)
Theorem create_index_missing_schema self index_name schema_file w
    (Habsent : files w !! path_join (indices_dir self) schema_file = None) :
  let out := create_index self index_name schema_file w in
  out.1 = Ok false ∧
  requests out.2 = requests w ∧
  cluster out.2 = cluster w ∧
  log out.2
    = log w ++ [(ERROR,
                 MsgSchemaNotFound
                   (path_join (indices_dir self) schema_file))].
Proof.
  simpl. rewrite create_index_cases. unfold create_index_result.
  rewrite Habsent. done.
Qed.

(** C9. The schema file is resolved and parsed before the cluster is
    asked anything: when it is missing or does not parse,
    [create_index] returns false whatever the cluster holds, so also
    when the index already exists; the existence check is never sent
    and the only line logged is an error. *)
Theorem schema_checked_before_existence self index_name schema_file w
    (Hbad : files w !! path_join (indices_dir self) schema_file = None ∨
            files w !! path_join (indices_dir self) schema_file
              = Some Unparsable) :
  let out := create_index self index_name schema_file w in
  out.1 = Ok false ∧
  requests out.2 = requests w ∧
  cluster out.2 = cluster w ∧
  ∃ m, log out.2 = log w ++ [(ERROR, m)].
Proof.
  simpl. rewrite create_index_cases. unfold create_index_result.
  destruct Hbad as [-> | ->]; simpl; eauto 10.
Qed.

(** ** Splitting the API key *)

Lemma split_no_sep c s : contains c s = false → split c s = [s].
Proof.
  induction s as [|a s IH]; simpl; [done|].
  case_decide; [done|]. intros Hs. by rewrite IH.
Qed.

Lemma split_at_first c a b :
  contains c a = false → split c (a +:+ String c b) = a :: split c b.
Proof.
  induction a as [|x a IH]; simpl.
  - intros _. case_decide; done.
  - case_decide; [done|]. intros Hs. by rewrite IH.
Qed.

Lemma contains_first c s :
  contains c s = true →
  ∃ a b, s = a +:+ String c b ∧ contains c a = false.
Proof.
  induction s as [|x s IH]; simpl; [done|].
  case_decide as Hx.
  - intros _. exists EmptyString, s. by subst.
  - intros Hs. destruct (IH Hs) as (a & b & -> & Ha).
    exists (String x a), b. simpl. split; [done|].
    case_decide; done.
Qed.

Lemma contains_app c a b :
  contains c (a +:+ b) = contains c a || contains c b.
Proof.
  induction a as [|x a IH]; simpl; [done|]. case_decide; done.
Qed.

Lemma split_head c s : ∃ piece pieces, split c s = piece :: pieces.
Proof.
  destruct s as [|a s]; simpl; [eauto|].
  case_decide; [eauto|]. destruct (split c s); eauto.
Qed.

Section ConstructionProperties.

Variable node_url_accepted : string → bool.

Lemma init_unset w :
  environ w !! "ELASTICSEARCH_URL" = None ∨
  environ w !! "ELASTICSEARCH_API_KEY" = None →
  __init__ node_url_accepted w = (Raise config_error, w).
Proof.
  unfold __init__. unfold_monad.
  intros [H | H]; rewrite H; [done|].
  by destruct (environ w !! "ELASTICSEARCH_URL").
Qed.

Lemma init_empty w :
  environ w !! "ELASTICSEARCH_URL" = Some "" ∨
  environ w !! "ELASTICSEARCH_API_KEY" = Some "" →
  __init__ node_url_accepted w = (Raise config_error, w).
Proof.
  unfold __init__. unfold_monad.
  intros [H | H]; rewrite H.
  - by destruct (environ w !! "ELASTICSEARCH_API_KEY").
  - destruct (environ w !! "ELASTICSEARCH_URL") as [u|]; [|done].
    simpl. by rewrite orb_true_r.
Qed.

Lemma init_configured w url key :
  environ w !! "ELASTICSEARCH_URL" = Some url →
  environ w !! "ELASTICSEARCH_API_KEY" = Some key →
  url ≠ "" → key ≠ "" →
  node_url_accepted url = true →
  __init__ node_url_accepted w
  = (Ok (mkSelf url key
           (mkClient [url]
              (if contains ":" key then pair_of_key key else Bearer key))
           schema_dir), w).
Proof.
  intros Hu Hk Hune Hkne Hacc.
  unfold __init__, Elasticsearch. unfold_monad. rewrite Hu, Hk.
  destruct url as [|x url]; [done|]. destruct key as [|y key]; [done|].
  cbn [py_bool negb orb forallb]. rewrite Hacc. cbn [andb].
  destruct (contains ":" (String y key)) eqn:Hc.
  - destruct (contains_first _ _ Hc) as (a & b & Heq & Ha).
    unfold pair_of_key. rewrite Heq, (split_at_first _ _ _ Ha).
    destruct (split_head ":" b) as (p & ps & ->). done.
  - done.
Qed.

End ConstructionProperties.

Lemma init_pure node_url_accepted w : (__init__ node_url_accepted w).2 = w.
Proof.
  unfold __init__, Elasticsearch. unfold_monad.
  repeat (case_match; simpl in *; simplify_eq; try done).
Qed.

(** C4. With both variables set to valid values, that is non-empty
    ones with a URL the client accepts, construction succeeds and yields
    an instance holding them; with either variable unset it raises the
    configuration error; and construction never changes the world, so
    no request is sent in either case. *)
Theorem construction_outcome node_url_accepted w :
  (∀ url key,
      environ w !! "ELASTICSEARCH_URL" = Some url →
      environ w !! "ELASTICSEARCH_API_KEY" = Some key →
      url ≠ "" → key ≠ "" → node_url_accepted url = true →
      ∃ self, __init__ node_url_accepted w = (Ok self, w) ∧
              es_url self = url ∧ es_api_key self = key ∧
              hosts (es self) = [url]) ∧
  (environ w !! "ELASTICSEARCH_URL" = None ∨
   environ w !! "ELASTICSEARCH_API_KEY" = None →
   __init__ node_url_accepted w = (Raise config_error, w)) ∧
  requests (__init__ node_url_accepted w).2 = requests w.
Proof.
  split_and!.
  - intros url key Hu Hk Hune Hkne Hacc.
    eexists. split; [by apply init_configured|]. done.
  - apply init_unset.
  - by rewrite init_pure.
Qed.

(** C10. An empty string counts as unset: when either variable is set
    to the empty string, construction raises the configuration error
    and sends nothing, which is what it does in every environment where
    one of the two is absent. *)
Theorem empty_variable_as_unset node_url_accepted w
    (Hempty : environ w !! "ELASTICSEARCH_URL" = Some "" ∨
              environ w !! "ELASTICSEARCH_API_KEY" = Some "") :
  __init__ node_url_accepted w = (Raise config_error, w) ∧
  ∀ w', environ w' !! "ELASTICSEARCH_URL" = None ∨
        environ w' !! "ELASTICSEARCH_API_KEY" = None →
        (__init__ node_url_accepted w').1
        = (__init__ node_url_accepted w).1.
Proof.
  rewrite (init_empty _ _ Hempty). split; [done|].
  intros w' Hunset. by rewrite (init_unset _ _ Hunset).
Qed.

(** C5 as stated fails on a key with two colons: from [a:b:c] the
    constructor builds the pair (a, b), which is not the text before
    and the text after any colon of the key. *)
Lemma api_key_two_colons :
  ∃ self,
    __init__ (λ _, true) (configured "https://localhost:9200" "a:b:c")
    = (Ok self, configured "https://localhost:9200" "a:b:c") ∧
    api_key (es self) = KeyPair "a" "b" ∧
    ∀ id secret, "a:b:c" = id +:+ ":" +:+ secret →
                 api_key (es self) ≠ KeyPair id secret.
Proof.
  eexists. split; [vm_compute; reflexivity|]. split; [done|].
  intros id secret Hkey [= <- <-]. discriminate Hkey.
Qed.

(** C5, amended. For a non-empty key in a configured environment:
    without a colon the whole key is the bearer credential; with a
    colon the credential is a pair whose id is the text before the
    first colon, and whose secret is the text after it when that colon
    is the only one. *)
Theorem api_key_credential node_url_accepted w url key
    (Hurl : environ w !! "ELASTICSEARCH_URL" = Some url)
    (Hkey : environ w !! "ELASTICSEARCH_API_KEY" = Some key)
    (Hune : url ≠ "") (Hkne : key ≠ "")
    (Hacc : node_url_accepted url = true) :
  ∃ self,
    __init__ node_url_accepted w = (Ok self, w) ∧
    (contains ":" key = false → api_key (es self) = Bearer key) ∧
    (contains ":" key = true →
     ∃ id secret, api_key (es self) = KeyPair id secret) ∧
    (∀ id rest,
        key = id +:+ ":" +:+ rest → contains ":" id = false →
        ∃ secret, api_key (es self) = KeyPair id secret ∧
                  (contains ":" rest = false → secret = rest)).
Proof.
  eexists. split; [by apply init_configured|]. simpl. split_and!.
  - by intros ->.
  - intros Hc. rewrite Hc.
    destruct (contains_first _ _ Hc) as (a & b & -> & Ha).
    unfold pair_of_key. rewrite (split_at_first _ _ _ Ha).
    destruct (split_head ":" b) as (p & ps & ->). eauto.
  - intros id rest -> Hid.
    rewrite contains_app. simpl. rewrite orb_true_r. unfold pair_of_key.
    change (id +:+ ":" +:+ rest) with (id +:+ String ":" rest).
    rewrite (split_at_first _ _ _ Hid).
    destruct (split_head ":" rest) as (p & ps & Hsp). rewrite Hsp.
    eexists. split; [done|]. intros Hrest.
    rewrite (split_no_sep _ _ Hrest) in Hsp. by simplify_eq.
Qed.

(** ** Deleting the indices *)

Lemma delete_all_indices_unfold self :
  delete_all_indices self
  = try_except (for_in index_names (delete_step self) tt)
      (λ e, logger_error (MsgDeleteFailed e)).
Proof. reflexivity. Qed.

Lemma delete_step_cases self index_name u w :
  delete_step self index_name u w = delete_step_result index_name w.
Proof.
  unfold delete_step, delete_step_result. unfold_monad.
  destruct (faults w) as [|[] fs] eqn:Hf; simpl; [|done|];
    (destruct (cluster w !! index_name) eqn:Hc; simpl; [|done]);
    rewrite ?Hf; simpl.
  - by rewrite Hc.
  - destruct fs as [|[] fs']; simpl; by rewrite ?Hc.
Qed.

Lemma for_in_app {A V} (l1 l2 : list A) (body : A → V → M V) v w :
  for_in (l1 ++ l2) body v w
  = match for_in l1 body v w with
    | (Ok v', w1) => for_in l2 body v' w1
    | (Raise e, w1) => (Raise e, w1)
    end.
Proof.
  revert v w. induction l1 as [|x l1 IH]; intros v w; simpl; [done|].
  unfold bind. destruct (body x v w) as [[v'|e] w1]; [apply IH|done].
Qed.

Lemma trail_refl l w : trail l w w.
Proof.
  split_and!; try done.
  - exists []. rewrite app_nil_r. split; [done|]. by intros r ?%elem_of_nil.
  - exists []. rewrite app_nil_r. split; [done|]. by intros r ?%elem_of_nil.
Qed.

Lemma trail_trans l1 l2 w w1 w2 :
  trail l1 w w1 → trail l2 w1 w2 → trail (l1 ++ l2) w w2.
Proof.
  intros ((rs1 & Hr1 & Hk1) & (ls1 & Hl1 & Hm1) & Hc1 & Hs1)
         ((rs2 & Hr2 & Hk2) & (ls2 & Hl2 & Hm2) & Hc2 & Hs2).
  split_and!.
  - exists (rs1 ++ rs2). split; [by rewrite Hr2, Hr1, app_assoc|].
    intros r [Hin | Hin]%elem_of_app.
    + destruct (Hk1 r Hin) as (n & Hn & Hcase).
      exists n. split; [apply elem_of_app; by left|done].
    + destruct (Hk2 r Hin) as (n & Hn & [-> | [-> Hex]]).
      * exists n. split; [apply elem_of_app; by right|by left].
      * exists n. split; [apply elem_of_app; by right|].
        right. split; [done|]. by apply Hs1.
  - exists (ls1 ++ ls2). split; [by rewrite Hl2, Hl1, app_assoc|].
    intros e [Hin | Hin]%elem_of_app.
    + destruct (Hm1 e Hin) as (n & Hn & ->).
      exists n. split; [apply elem_of_app; by left|done].
    + destruct (Hm2 e Hin) as (n & Hn & ->).
      exists n. split; [apply elem_of_app; by right|done].
  - intros m Hm. apply not_elem_of_app in Hm as [Hm1' Hm2'].
    by rewrite Hc2, Hc1.
  - intros m Hm. by apply Hs1, Hs2.
Qed.

Lemma delete_step_trail self n u w o w' :
  delete_step self n u w = (o, w') →
  trail [n] w w' ∧ (∀ e, o = Raise e → e = TransportError).
Proof.
  rewrite delete_step_cases. unfold delete_step_result.
  assert (Hex : ∀ w0, trail [n] w0 (add_request (ReqExists n) w0)).
  { intros w0. split_and!; simpl; try done.
    - exists [ReqExists n]. split; [done|].
      intros r ->%list_elem_of_singleton. exists n. split; [apply list_elem_of_here|by left].
    - exists []. rewrite app_nil_r. split; [done|]. by intros e ?%elem_of_nil. }
  assert (Hdel : ∀ w0, is_Some (cluster w0 !! n) →
     trail [n] w0 (add_request (ReqDelete n) (add_request (ReqExists n) w0))).
  { intros w0 Hn. split_and!; simpl; try done.
    - exists [ReqExists n; ReqDelete n]. split; [by rewrite <- app_assoc|].
      intros r Hr. exists n. split; [apply list_elem_of_here|].
      apply elem_of_cons in Hr as [-> | ->%list_elem_of_singleton];
        [by left|by right].
    - exists []. rewrite app_nil_r. split; [done|]. by intros e ?%elem_of_nil. }
  destruct (head (faults w)) as [[]|] eqn:Hf;
    [intros [= <- <-]; split; [apply Hex|by intros e [= <-]]| |];
    (destruct (cluster w !! n) as [body|] eqn:Hc;
     [|intros [= <- <-]; split; [apply Hex|done]]);
    (destruct (head (faults (add_request (ReqExists n) w))) as [[]|];
     [intros [= <- <-]; split; [by apply Hdel|by intros e [= <-]]| |]);
    intros [= <- <-]; (split; [|done]);
    (split_and!; simpl;
     [exists [ReqExists n; ReqDelete n]; split; [by rewrite <- app_assoc|];
      intros r Hr; exists n; (split; [apply list_elem_of_here|]);
      apply elem_of_cons in Hr as [-> | ->%list_elem_of_singleton];
      [by left|by right]
     |exists [(INFO, MsgDeleted n)]; split; [done|];
      intros e ->%list_elem_of_singleton; exists n; split; [apply list_elem_of_here|done]
     |intros m Hm; apply lookup_delete_ne; intros ->; apply Hm, list_elem_of_here
     |intros m [x Hx]; apply lookup_delete_Some in Hx as [_ Hx]; eauto]).
Qed.

Lemma delete_loop_trail self l w o w' :
  for_in l (delete_step self) tt w = (o, w') →
  trail l w w' ∧ (∀ e, o = Raise e → e = TransportError).
Proof.
  revert w. induction l as [|n l IH]; intros w; simpl.
  - intros [= <- <-]. split; [apply trail_refl|done].
  - unfold bind. destruct (delete_step self n tt w) as [[[]|e] w1] eqn:Hstep.
    + intros Hrest. destruct (delete_step_trail _ _ _ _ _ _ Hstep) as [Ht _].
      destruct (IH _ Hrest) as [Ht' He]. split; [|done].
      by apply (trail_trans [n] l _ w1).
    + intros [= <- <-].
      destruct (delete_step_trail _ _ _ _ _ _ Hstep) as [Ht He].
      split; [|done]. rewrite <- (app_nil_r (n :: l)).
      apply (trail_trans [n] (l ++ []) _ w1); [done|apply trail_refl].
Qed.

Lemma delete_loop_quiet self l w :
  quiet w →
  ∃ w' rs,
    for_in l (delete_step self) tt w = (Ok tt, w') ∧
    requests w' = requests w ++ rs ∧
    (∀ n, n ∈ l → ReqExists n ∈ rs) ∧
    (∀ n, n ∈ l → is_Some (cluster w !! n) → ReqDelete n ∈ rs) ∧
    (∀ n, n ∈ l → cluster w' !! n = None).
Proof.
  revert w. induction l as [|a l IH]; intros w Hq.
  - exists w, []. simpl. rewrite app_nil_r.
    split_and!; try done; by intros n ?%elem_of_nil.
  - pose proof (quiet_next_ok _ Hq) as Hn.
    assert (Hstep : ∃ w1 rs1,
      delete_step self a tt w = (Ok tt, w1) ∧ quiet w1 ∧
      requests w1 = requests w ++ rs1 ∧ ReqExists a ∈ rs1 ∧
      (is_Some (cluster w !! a) → ReqDelete a ∈ rs1) ∧
      cluster w1 !! a = None ∧
      (∀ n, n ≠ a → cluster w1 !! n = cluster w !! n)).
    { rewrite delete_step_cases. unfold delete_step_result.
      pose proof (quiet_add_request (ReqExists a) w Hq) as Hq1.
      pose proof (quiet_next_ok _ Hq1) as Hn1.
      unfold next_ok in Hn, Hn1.
      destruct (head (faults w)) as [[]|]; [done| |];
        (destruct (cluster w !! a) as [body|] eqn:Hc;
         [destruct (head (faults (add_request (ReqExists a) w))) as [[]|];
          [done| |];
          (eexists _, [ReqExists a; ReqDelete a]; split; [done|];
           split_and!; simpl;
           [by apply quiet_add_request
           |by rewrite <- app_assoc
           |apply list_elem_of_here
           |intros _; apply list_elem_of_further, list_elem_of_here
           |apply lookup_delete_eq
           |intros n Hne; by apply lookup_delete_ne])
         |eexists _, [ReqExists a]; split; [done|];
          split_and!; simpl;
          [done|done|apply list_elem_of_here|by intros [? ?]|done|done]]). }
    destruct Hstep as (w1 & rs1 & Hs & Hq1 & Hr1 & He1 & Hd1 & Hc1 & Hf1).
    destruct (IH w1 Hq1) as (w' & rs & Hloop & Hr & He & Hd & Hc).
    exists w', (rs1 ++ rs). simpl. unfold bind. rewrite Hs.
    split; [done|]. split; [by rewrite Hr, Hr1, app_assoc|].
    destruct (delete_loop_trail _ _ _ _ _ Hloop) as [(_ & _ & Hframe & _) _].
    split_and!.
    + intros n [-> | Hin]%elem_of_cons; apply elem_of_app;
        [by left|right; by apply He].
    + intros n Hin Hsome. apply elem_of_app.
      destruct (decide (n = a)) as [-> | Hne]; [left; by apply Hd1|].
      apply elem_of_cons in Hin as [-> | Hin]; [done|].
      right. apply Hd; [done|]. by rewrite Hf1.
    + intros n Hin. destruct (decide (n ∈ l)) as [Hl | Hl]; [by apply Hc|].
      apply elem_of_cons in Hin as [-> | Hin]; [|done].
      by rewrite Hframe.
Qed.

(** C7. [delete_all_indices] never raises; every delete call it sends
    is for one of the four names that was in the cluster, and indices
    of other names stay as they were.  When no request fails, each of
    the four names is checked, each one present is deleted, the absent
    ones are passed over, and no error is logged.  When the step of one
    name raises, the single handler around the loop logs it and the
    names after it are not attempted: no request about them is sent and
    they stay as they were. *)
Theorem delete_all_indices_behaviour self w :
  let out := delete_all_indices self w in
  out.1 = Ok tt ∧
  (∀ n, ReqDelete n ∈ issued w out.2 →
        n ∈ index_names ∧ is_Some (cluster w !! n)) ∧
  (∀ m, m ∉ index_names → cluster out.2 !! m = cluster w !! m) ∧
  (quiet w →
   (∀ n, n ∈ index_names →
         ReqExists n ∈ issued w out.2 ∧
         (is_Some (cluster w !! n) → ReqDelete n ∈ issued w out.2) ∧
         cluster out.2 !! n = None) ∧
   ∃ ls, log out.2 = log w ++ ls ∧ ∀ e, e ∈ ls → e.1 = INFO) ∧
  (∀ pre n post w1 e w2,
      index_names = pre ++ n :: post →
      for_in pre (delete_step self) tt w = (Ok tt, w1) →
      delete_step self n tt w1 = (Raise e, w2) →
      out = (Ok tt, add_log ERROR (MsgDeleteFailed e) w2) ∧
      ∀ m, m ∈ post →
           (ReqExists m ∉ issued w out.2) ∧
           (ReqDelete m ∉ issued w out.2) ∧
           cluster out.2 !! m = cluster w !! m).
Proof.
  simpl. rewrite delete_all_indices_unfold.
  destruct (for_in index_names (delete_step self) tt w) as [o w'] eqn:Hloop.
  destruct (delete_loop_trail _ _ _ _ _ Hloop)
    as [((rs & Hrs & Hk) & (ls & Hls & Hm) & Hframe & Hshrink) Hexn].
  assert (Hout : ∃ w'', try_except (for_in index_names (delete_step self) tt)
                    (λ e, logger_error (MsgDeleteFailed e)) w = (Ok tt, w'') ∧
                  requests w'' = requests w' ∧ cluster w'' = cluster w').
  { unfold try_except. rewrite Hloop. destruct o as [[]|e]; [eauto|].
    rewrite (Hexn e eq_refl). simpl. eauto. }
  destruct Hout as (w'' & Hrun & Hreq & Hcl). rewrite Hrun. simpl.
  assert (Hissued : issued w w'' = rs).
  { apply issued_app. by rewrite Hreq. }
  rewrite Hissued, Hcl. split_and!; try done.
  - intros n Hin. destruct (Hk _ Hin) as (n' & Hn' & [[=] | [[= <-] Hsome]]).
    done.
  - intros Hq.
    destruct (delete_loop_quiet self index_names w Hq)
      as (wq & rq & Hloopq & Hrq & Heq & Hdq & Hcq).
    rewrite Hloop in Hloopq. injection Hloopq as -> ->.
    assert (rq = rs) as -> by (rewrite Hrs in Hrq; by simplify_list_eq).
    split.
    + intros n Hin. split_and!; [by apply Heq|by apply Hdq|by apply Hcq].
    + unfold try_except in Hrun. rewrite Hloop in Hrun.
      injection Hrun as <-. exists ls. split; [done|].
      intros e He. by destruct (Hm _ He) as (n & _ & ->).
  - intros pre n post w1 e w2 Hsplit Hpre Hstep.
    assert (Hraise : for_in index_names (delete_step self) tt w
                     = (Raise e, w2)).
    { rewrite Hsplit, for_in_app, Hpre. simpl. unfold bind. by rewrite Hstep. }
    rewrite Hloop in Hraise. injection Hraise as -> ->.
    assert (He : e = TransportError) by (by apply Hexn). subst e.
    unfold try_except in Hrun. rewrite Hloop in Hrun. simpl in Hrun.
    injection Hrun as <-. split; [done|].
    destruct (delete_loop_trail _ _ _ _ _ Hpre)
      as [((rs1 & Hrs1 & Hk1) & _ & Hframe1 & _) _].
    destruct (delete_step_trail _ _ _ _ _ _ Hstep)
      as [((rs2 & Hrs2 & Hk2) & _ & Hframe2 & _) _].
    assert (rs = rs1 ++ rs2) as ->.
    { rewrite Hrs2, Hrs1, <- app_assoc in Hrs. by simplify_list_eq. }
    assert (Hnodup : NoDup (pre ++ n :: post)).
    { rewrite <- Hsplit. unfold index_names.
      compute_done. }
    apply NoDup_app in Hnodup as (_ & Hdisj & Hnodup).
    apply NoDup_cons in Hnodup as [Hn _].
    intros m Hm'.
    assert (Hm1 : m ∉ pre) by (intros Hin; apply (Hdisj m Hin); by right).
    assert (Hm2 : m ∉ [n]).
    { intros ->%list_elem_of_singleton. done. }
    split_and!.
    + intros [Hin | Hin]%elem_of_app.
      * destruct (Hk1 _ Hin) as (x & Hx & [[= <-] | [[=] _]]). done.
      * destruct (Hk2 _ Hin) as (x & Hx & [[= <-] | [[=] _]]). done.
    + intros [Hin | Hin]%elem_of_app.
      * destruct (Hk1 _ Hin) as (x & Hx & [[=] | [[= <-] _]]). done.
      * destruct (Hk2 _ Hin) as (x & Hx & [[=] | [[= <-] _]]). done.
    + simpl. by rewrite Hframe2, Hframe1.
Qed.

(** ** Listing *)

Lemma add_logs_nil w : add_logs [] w = w.
Proof. destruct w. unfold add_logs. simpl. by rewrite app_nil_r. Qed.

Lemma add_logs_cons l m ls w :
  add_logs ls (add_log l m w) = add_logs ((l, m) :: ls) w.
Proof. unfold add_logs, add_log. simpl. by rewrite <- app_assoc. Qed.

Lemma for_in_index_lines names w :
  for_in names (λ index_name _, logger_info (MsgIndexLine index_name)) tt w
  = (Ok tt, add_logs (index_lines names) w).
Proof.
  revert w. induction names as [|n names IH]; intros w; simpl.
  - by rewrite add_logs_nil.
  - unfold bind, logger_info. rewrite IH. by rewrite add_logs_cons.
Qed.

Lemma list_indices_cases self w :
  list_indices self w = list_indices_result w.
Proof.
  unfold list_indices, list_indices_result, es_indices_get.
  unfold try_except, bind at 1.
  destruct (head (faults w)) as [[]|] eqn:Hf.
  - unfold bind. rewrite perform_fault by done. done.
  - unfold bind at 1. rewrite perform_ok by (unfold next_ok; congruence).
    rewrite decide_True by done. unfold bind, logger_info.
    rewrite for_in_index_lines. simpl. by rewrite add_logs_cons.
  - unfold bind at 1. rewrite perform_ok by (unfold next_ok; congruence).
    rewrite decide_True by done. unfold bind, logger_info.
    rewrite for_in_index_lines. simpl. by rewrite add_logs_cons.
Qed.

Lemma keys_NoDup {V} (d : gmap string V) : NoDup (keys d).
Proof. apply NoDup_fst_map_to_list. Qed.

Lemma elem_of_keys {V} (d : gmap string V) n : n ∈ keys d ↔ is_Some (d !! n).
Proof.
  unfold keys. rewrite list_elem_of_fmap. split.
  - intros ([k v] & -> & Hin). apply elem_of_map_to_list in Hin. eauto.
  - intros [v Hv]. exists (n, v). split; [done|].
    by apply elem_of_map_to_list.
Qed.


(** ** Idempotence of [create_index] *)

(** C2 as stated fails when the schema file is missing: the index is
    in the cluster, yet [create_index] returns false and logs an error
    instead of the warning. *)
Lemma create_index_existing_without_schema :
  let w := start ∅ {[ "permits" := a_schema ]} in
  let out := create_index a_self "permits" "permits.json" w in
  cluster w !! "permits" = Some a_schema ∧
  out.1 = Ok false ∧
  log out.2
    = [(ERROR,
        MsgSchemaNotFound "src/elasticsearch_setup/indices/permits.json")].
Proof. vm_compute. done. Qed.

(** C2, amended. When the schema file parses and the existence check
    goes through, [create_index] on an index that is already there logs
    the warning and returns true, having sent the existence check only
    and left the cluster as it was.  Hence, after a call that returned
    true, a second call for the same name whose existence check goes
    through returns true, sends no creation call and leaves the cluster
    as the first call left it, with the index present under its name;
    the two calls together send at most one creation call. *)
Theorem create_index_idempotent self index_name schema_file w :
  (∀ doc body,
      files w !! path_join (indices_dir self) schema_file
        = Some (Document doc) →
      cluster w !! index_name = Some body →
      next_ok w →
      create_index self index_name schema_file w
      = (Ok true,
         add_log WARNING (MsgAlreadyExists index_name)
           (add_request (ReqExists index_name) w))) ∧
  (∀ w1,
      create_index self index_name schema_file w = (Ok true, w1) →
      next_ok w1 →
      let out := create_index self index_name schema_file w1 in
      out.1 = Ok true ∧
      issued w1 out.2 = [ReqExists index_name] ∧
      log out.2 = log w1 ++ [(WARNING, MsgAlreadyExists index_name)] ∧
      cluster out.2 = cluster w1 ∧
      is_Some (cluster w1 !! index_name) ∧
      (length (filter is_create (issued w out.2)) ≤ 1)%nat).
Proof.
  assert (Hfirst : ∀ w0 doc body,
      files w0 !! path_join (indices_dir self) schema_file
        = Some (Document doc) →
      cluster w0 !! index_name = Some body →
      next_ok w0 →
      create_index self index_name schema_file w0
      = (Ok true,
         add_log WARNING (MsgAlreadyExists index_name)
           (add_request (ReqExists index_name) w0))).
  { intros w0 doc body Hfile Hc Hn.
    rewrite create_index_cases. unfold create_index_result.
    rewrite Hfile, Hc. unfold next_ok in Hn.
    by destruct (head (faults w0)) as [[]|]. }
  split; [apply Hfirst|].
  intros w1 Hrun Hn1.
  assert (Hafter : ∃ doc body rs,
      files w1 !! path_join (indices_dir self) schema_file
        = Some (Document doc) ∧
      cluster w1 !! index_name = Some body ∧
      requests w1 = requests w ++ rs ∧
      (length (filter is_create rs) ≤ 1)%nat).
  { rewrite create_index_cases in Hrun. unfold create_index_result in Hrun.
    destruct (files w !! path_join (indices_dir self) schema_file)
      as [[|doc]|] eqn:Hfile; [done| |done].
    destruct (head (faults w)) as [[]|];
      [done| |];
      (destruct (cluster w !! index_name) as [b|] eqn:Hc;
       [injection Hrun as <-;
        exists doc, b, [ReqExists index_name]; simpl;
        (split_and!; [done|done|done|cbv; lia])
       |destruct doc as [| | | | |body]; try done;
        destruct (head (faults (add_request (ReqExists index_name) w)))
          as [[]|]; [done| |];
        injection Hrun as <-;
        exists (JObj body), body,
          [ReqExists index_name; ReqCreate index_name body];
        simpl; (split_and!;
                [done|apply lookup_insert_eq|by rewrite <- app_assoc
                |cbv; lia])]). }
  destruct Hafter as (doc & body & rs & Hfile1 & Hc1 & Hrs & Hlen).
  simpl. rewrite (Hfirst w1 doc body Hfile1 Hc1 Hn1). simpl.
  assert (Hi1 : issued w1
      (add_log WARNING (MsgAlreadyExists index_name)
         (add_request (ReqExists index_name) w1)) = [ReqExists index_name])
    by (by apply issued_app).
  assert (Hi : issued w
      (add_log WARNING (MsgAlreadyExists index_name)
         (add_request (ReqExists index_name) w1))
      = rs ++ [ReqExists index_name]).
  { apply issued_app. simpl. by rewrite Hrs, <- app_assoc. }
  rewrite Hi1, Hi. split_and!; try done; try (by eauto).
  rewrite filter_app, length_app.
  change (length (filter is_create [ReqExists index_name])) with 0%nat. lia.
Qed.

(** ** The theorems at concrete worlds *)

Lemma setup_all_indices_conjunction_witness :
  let w := start (some_schemas true false true true) ∅ in
  (test_connection a_self (add_log INFO MsgStarting w)).1 = Ok true ∧
  ∃ b1 b2 b3 b4, (setup_all_indices a_self w).1 = Ok (b1 && b2 && b3 && b4).
Proof.
  split; [reflexivity|].
  destruct (setup_all_indices_conjunction a_self
              (start (some_schemas true false true true) ∅) eq_refl)
    as [(b1 & b2 & b3 & b4 & w0 & w1 & w2 & w3 & w4 & _ & _ & _ & _ & _
         & Hrun & _) _].
  exists b1, b2, b3, b4. rewrite Hrun. reflexivity.
Defined.

Lemma setup_aborts_when_unreachable_witness :
  (test_connection a_self unreachable).1 = Ok false ∧
  (setup_all_indices a_self unreachable).1 = Ok false ∧
  issued unreachable (setup_all_indices a_self unreachable).2 = [ReqInfo].
Proof.
  split; [reflexivity|].
  destruct (setup_aborts_when_unreachable a_self unreachable eq_refl)
    as (Hres & Hreq & _).
  split; [exact Hres|exact Hreq].
Defined.

Lemma create_index_missing_schema_witness :
  files (start ∅ ∅) !! path_join (indices_dir a_self) "permits.json" = None ∧
  (create_index a_self "permits" "permits.json" (start ∅ ∅)).1 = Ok false ∧
  requests (create_index a_self "permits" "permits.json" (start ∅ ∅)).2 = [].
Proof.
  split; [vm_compute; reflexivity|].
  assert (Habsent : files (start ∅ ∅)
                      !! path_join (indices_dir a_self) "permits.json" = None)
    by (vm_compute; reflexivity).
  destruct (create_index_missing_schema a_self "permits" "permits.json"
              (start ∅ ∅) Habsent) as (Hres & Hreq & _).
  split; [exact Hres|exact Hreq].
Defined.

Lemma schema_checked_before_existence_witness :
  cluster garbled !! "permits" = Some a_schema ∧
  files garbled !! path_join (indices_dir a_self) "permits.json"
    = Some Unparsable ∧
  (create_index a_self "permits" "permits.json" garbled).1 = Ok false ∧
  requests (create_index a_self "permits" "permits.json" garbled).2 = [].
Proof.
  assert (Hfile : files garbled
                    !! path_join (indices_dir a_self) "permits.json"
                  = Some Unparsable) by (vm_compute; reflexivity).
  split; [vm_compute; reflexivity|]. split; [exact Hfile|].
  destruct (schema_checked_before_existence a_self "permits" "permits.json"
              garbled (or_intror Hfile)) as (Hres & Hreq & _).
  split; [exact Hres|exact Hreq].
Defined.

Lemma construction_outcome_witness :
  (∃ self,
      __init__ (λ _, true) (configured "https://localhost:9200" "id:secret")
      = (Ok self, configured "https://localhost:9200" "id:secret") ∧
      es_url self = "https://localhost:9200") ∧
  __init__ (λ _, true) (start ∅ ∅) = (Raise config_error, start ∅ ∅).
Proof.
  split.
  - destruct (construction_outcome (λ _, true)
                (configured "https://localhost:9200" "id:secret"))
      as (Hok & _ & _).
    destruct (Hok "https://localhost:9200" "id:secret")
      as (self & Hrun & Hurl & _);
      [vm_compute; reflexivity|vm_compute; reflexivity
      |discriminate|discriminate|reflexivity|].
    exists self. split; [exact Hrun|exact Hurl].
  - destruct (construction_outcome (λ _, true) (start ∅ ∅))
      as (_ & Hunset & _).
    apply Hunset. left. vm_compute; reflexivity.
Defined.

Lemma empty_variable_as_unset_witness :
  environ (configured "" "id:secret") !! "ELASTICSEARCH_URL" = Some "" ∧
  __init__ (λ _, true) (configured "" "id:secret")
  = (Raise config_error, configured "" "id:secret").
Proof.
  assert (Hempty : environ (configured "" "id:secret") !! "ELASTICSEARCH_URL"
                   = Some "") by (vm_compute; reflexivity).
  split; [exact Hempty|].
  exact (proj1 (empty_variable_as_unset (λ _, true)
                  (configured "" "id:secret") (or_introl Hempty))).
Defined.

Lemma api_key_credential_witness :
  ∃ self,
    __init__ (λ _, true) (configured "https://localhost:9200" "id:secret")
    = (Ok self, configured "https://localhost:9200" "id:secret") ∧
    api_key (es self) = KeyPair "id" "secret".
Proof.
  destruct (api_key_credential (λ _, true)
              (configured "https://localhost:9200" "id:secret")
              "https://localhost:9200" "id:secret")
    as (self & Hrun & _ & _ & Hpair);
    [vm_compute; reflexivity|vm_compute; reflexivity
    |discriminate|discriminate|reflexivity|].
  destruct (Hpair "id" "secret" eq_refl eq_refl) as (secret & Hcred & Hsecret).
  exists self. split; [exact Hrun|].
  rewrite Hcred. rewrite (Hsecret eq_refl). reflexivity.
Defined.

Lemma create_index_idempotent_witness :
  let first := create_index a_self "permits" "permits.json"
                 (start (some_schemas false true false false) ∅) in
  let second := create_index a_self "permits" "permits.json" first.2 in
  first.1 = Ok true ∧ second.1 = Ok true ∧
  issued first.2 second.2 = [ReqExists "permits"] ∧
  cluster second.2 = cluster first.2 ∧
  (create_index a_self "permits" "permits.json" provisioned).1 = Ok true.
Proof.
  simpl.
  destruct (create_index_idempotent a_self "permits" "permits.json"
              (start (some_schemas false true false false) ∅))
    as [_ Htwice].
  destruct (Htwice
              (create_index a_self "permits" "permits.json"
                 (start (some_schemas false true false false) ∅)).2)
    as (Hres & Hreq & _ & Hcl & _);
    [vm_compute; reflexivity|vm_compute; discriminate|].
  destruct (create_index_idempotent a_self "permits" "permits.json"
              provisioned) as [Honce _].
  split; [vm_compute; reflexivity|].
  split; [exact Hres|]. split; [exact Hreq|]. split; [exact Hcl|].
  rewrite (Honce (JObj a_schema) a_schema);
    [reflexivity|vm_compute; reflexivity|vm_compute; reflexivity
    |vm_compute; discriminate].
Defined.

Lemma delete_all_indices_behaviour_witness :
  let out := delete_all_indices a_self flaky in
  out.1 = Ok tt ∧
  cluster out.2 !! "inspections" = Some a_schema ∧
  (ReqExists "inspections" ∉ issued flaky out.2) ∧
  cluster (delete_all_indices a_self provisioned).2 !! "permits" = None.
Proof.
  simpl.
  destruct (delete_all_indices_behaviour a_self flaky)
    as (Hres & _ & _ & _ & Hstop).
  destruct (Hstop ["regulations"] "permits"
              ["inspections"; "compliance_events"]
              (for_in ["regulations"] (delete_step a_self) tt flaky).2
              TransportError
              (delete_step a_self "permits" tt
                 (for_in ["regulations"] (delete_step a_self) tt flaky).2).2)
    as [_ Hrest];
    [reflexivity|vm_compute; reflexivity|vm_compute; reflexivity|].
  destruct (Hrest "inspections") as (Hno & _ & Hsame);
    [apply list_elem_of_here|].
  destruct (delete_all_indices_behaviour a_self provisioned)
    as (_ & _ & _ & Hquiet & _).
  assert (Hq : quiet provisioned) by (unfold quiet; simpl; constructor).
  destruct (Hquiet Hq) as [Hall _].
  destruct (Hall "permits") as (_ & _ & Hgone);
    [apply list_elem_of_further, list_elem_of_here|].
  split; [exact Hres|]. split; [|split; [exact Hno|exact Hgone]].
  rewrite Hsame. vm_compute; reflexivity.
Defined.


(** ** The entry point *)

(** Without configuration [main] logs the failure and exits with
    status 1, and nothing has been sent to the cluster. *)
Lemma main_exits_when_unconfigured node_url_accepted w :
  environ w !! "ELASTICSEARCH_URL" = None ∨
  environ w !! "ELASTICSEARCH_API_KEY" = None →
  main node_url_accepted w
  = (Raise (SystemExit 1), add_log ERROR (MsgSetupFailed config_error) w).
Proof.
  intros Hunset. unfold main, try_except.
  rewrite (bind_raise _ _ _ _ _ (init_unset node_url_accepted w Hunset)).
  done.
Qed.

(** * Further properties of the operations *)

(** ** The connectivity check *)

(** X1. [test_connection] never raises: it sends the info request and
    nothing else, returns true exactly when that request goes through,
    logs one line (the version on success, the error otherwise) and
    leaves the cluster as it was. *)
Theorem test_connection_never_raises self w :
  let out := test_connection self w in
  ∃ b, out.1 = Ok b ∧
       (b = true ↔ next_ok w) ∧
       issued w out.2 = [ReqInfo] ∧
       cluster out.2 = cluster w ∧
       log out.2
         = log w ++ [if b then (INFO, MsgConnected (cluster_version w))
                     else (ERROR, MsgConnectFailed TransportError)].
Proof.
  simpl. rewrite test_connection_cases. unfold test_connection_result, next_ok.
  destruct (head (faults w)) as [[]|]; simpl.
  - exists false. split; [done|]. split.
    { split; [done|]. intros Hn. by destruct Hn. }
    split; [by apply issued_app|done].
  - exists true. split; [done|]. split; [done|].
    split; [by apply issued_app|done].
  - exists true. split; [done|]. split; [done|].
    split; [by apply issued_app|done].
Qed.

(** ** One creation *)

(** X2. [create_index] never raises and reports each call with exactly
    one line, an error exactly when it returns false.  It sends
    nothing, or the existence check alone, or the existence check and
    one creation call whose body is the object of the schema file; the
    files and the environment are left alone. *)
Theorem create_index_footprint self index_name schema_file w :
  let out := create_index self index_name schema_file w in
  ∃ b l m rs,
    out.1 = Ok b ∧
    log out.2 = log w ++ [(l, m)] ∧
    (b = false ↔ l = ERROR) ∧
    requests out.2 = requests w ++ rs ∧
    (rs = [] ∨ rs = [ReqExists index_name] ∨
     ∃ body,
       files w !! path_join (indices_dir self) schema_file
         = Some (Document (JObj body)) ∧
       rs = [ReqExists index_name; ReqCreate index_name body]) ∧
    files out.2 = files w ∧ environ out.2 = environ w.
Proof.
  simpl. rewrite create_index_cases. unfold create_index_result.
  assert (Hone : ∀ (a : list request) b c, (a ++ [b]) ++ [c] = a ++ [b; c])
    by (intros; by rewrite <- app_assoc).
  destruct (files w !! path_join (indices_dir self) schema_file)
    as [[|doc]|] eqn:Hfile; simpl.
  - exists false, ERROR, (MsgCreateFailed index_name
      (JSONDecodeError (path_join (indices_dir self) schema_file))), [].
    rewrite app_nil_r. split_and!; try done. by left.
  - destruct (head (faults w)) as [[]|].
    { exists false, ERROR, (MsgCreateFailed index_name TransportError),
        [ReqExists index_name]. split_and!; try done. right; by left. }
    all: destruct (cluster w !! index_name) as [b|].
    all: try (exists true, WARNING, (MsgAlreadyExists index_name),
                [ReqExists index_name];
              split_and!; try done; try (by split); right; by left).
    all: destruct doc as [| | | | |body].
    all: try (exists false, ERROR, (MsgCreateFailed index_name TypeError),
                [ReqExists index_name];
              split_and!; try done; right; by left).
    all: simpl; destruct (head (tail (faults w))) as [[]|].
    all: try (exists false, ERROR, (MsgCreateFailed index_name TransportError),
                [ReqExists index_name; ReqCreate index_name body];
              simpl; split_and!; try done; right; right; by exists body).
    all: exists true, INFO, (MsgCreated index_name),
           [ReqExists index_name; ReqCreate index_name body];
         simpl; split_and!; try done; try (by split);
         right; right; by exists body.
  - exists false, ERROR,
      (MsgSchemaNotFound (path_join (indices_dir self) schema_file)), [].
    rewrite app_nil_r. split_and!; try done. by left.
Qed.

(** X3. What the result of [create_index] says about the cluster: after
    true the index is there and the schema file was a document; after
    false the cluster is exactly as it was. *)
Theorem create_index_result_meaning self index_name schema_file w :
  let out := create_index self index_name schema_file w in
  match out.1 with
  | Ok true =>
      is_Some (cluster out.2 !! index_name) ∧
      ∃ doc, files w !! path_join (indices_dir self) schema_file
             = Some (Document doc)
  | Ok false => cluster out.2 = cluster w
  | Raise _ => False
  end.
Proof.
  simpl. rewrite create_index_cases. unfold create_index_result.
  destruct (files w !! path_join (indices_dir self) schema_file)
    as [[|doc]|]; simpl; [done| |done].
  destruct (head (faults w)) as [[]|]; simpl; [done| |].
  all: destruct (cluster w !! index_name) as [b|] eqn:Hc; simpl;
    [by eauto|].
  all: destruct doc as [| | | | |body]; simpl; try done.
  all: destruct (head (tail (faults w))) as [[]|]; simpl; try done.
  all: rewrite lookup_insert_eq; by eauto.
Qed.





(** X6. A schema file that parses but is not an object only matters
    when the index is missing: once the existence check has gone
    through, [create_index] returns true if the index is there and
    false (a type error, logged) if it is not; in both cases the
    existence check is the only request and the cluster is as it
    was. *)
Theorem create_index_non_object self index_name schema_file doc w
    (Hfile : files w !! path_join (indices_dir self) schema_file
             = Some (Document doc))
    (Hshape : ∀ members, doc ≠ JObj members)
    (Hfirst : next_ok w) :
  let out := create_index self index_name schema_file w in
  out.1 = Ok (bool_decide (is_Some (cluster w !! index_name))) ∧
  issued w out.2 = [ReqExists index_name] ∧
  cluster out.2 = cluster w ∧
  log out.2
    = log w ++ [if bool_decide (is_Some (cluster w !! index_name))
                then (WARNING, MsgAlreadyExists index_name)
                else (ERROR, MsgCreateFailed index_name TypeError)].
Proof.
  simpl. rewrite create_index_cases. unfold create_index_result.
  rewrite Hfile. unfold next_ok in Hfirst.
  destruct (head (faults w)) as [[]|]; [done| |];
    (destruct (cluster w !! index_name) as [b|] eqn:Hc;
     [rewrite bool_decide_true by eauto
     |rewrite bool_decide_false by (by intros [? ?]);
      (destruct doc as [| | | | |members]; [| | | | |by destruct (Hshape members)])]);
    simpl; (split_and!; try done; by apply issued_app).
Qed.

(** ** The whole provisioning run *)

Lemma create_index_sends self index_name schema_file w :
  let out := create_index self index_name schema_file w in
  ∃ rs, requests out.2 = requests w ++ rs ∧
        (length rs ≤ 2)%nat ∧
        ∀ r, r ∈ rs →
             r = ReqExists index_name ∨
             ∃ body, r = ReqCreate index_name body ∧
                     files w !! path_join (indices_dir self) schema_file
                     = Some (Document (JObj body)).
Proof.
  simpl. rewrite create_index_cases. unfold create_index_result.
  assert (Hnone : ∃ rs : list request,
            requests w = requests w ++ rs ∧ (length rs ≤ 2)%nat ∧
            ∀ r, r ∈ rs →
                 r = ReqExists index_name ∨
                 ∃ body, r = ReqCreate index_name body ∧
                         files w !! path_join (indices_dir self) schema_file
                         = Some (Document (JObj body))).
  { exists []. rewrite app_nil_r. split; [done|]. split; [simpl; lia|].
    by intros r ?%elem_of_nil. }
  assert (Hone : ∃ rs : list request,
            requests w ++ [ReqExists index_name] = requests w ++ rs ∧
            (length rs ≤ 2)%nat ∧
            ∀ r, r ∈ rs →
                 r = ReqExists index_name ∨
                 ∃ body, r = ReqCreate index_name body ∧
                         files w !! path_join (indices_dir self) schema_file
                         = Some (Document (JObj body))).
  { exists [ReqExists index_name]. split; [done|]. split; [simpl; lia|].
    intros r ->%list_elem_of_singleton. by left. }
  destruct (files w !! path_join (indices_dir self) schema_file)
    as [[|doc]|] eqn:Hfile; simpl; [done| |done].
  destruct (head (faults w)) as [[]|]; simpl; [done| |].
  all: destruct (cluster w !! index_name) as [b|]; simpl; [done|].
  all: destruct doc as [| | | | |body]; simpl; try done.
  all: assert (Htwo : ∃ rs : list request,
            (requests w ++ [ReqExists index_name])
              ++ [ReqCreate index_name body] = requests w ++ rs ∧
            (length rs ≤ 2)%nat ∧
            ∀ r, r ∈ rs →
                 r = ReqExists index_name ∨
                 ∃ body0, r = ReqCreate index_name body0 ∧
                          Some (Document (JObj body))
                          = Some (Document (JObj body0)))
      by (exists [ReqExists index_name; ReqCreate index_name body];
          split; [by rewrite <- app_assoc|]; split; [simpl; lia|];
          intros r [-> | ->%list_elem_of_singleton]%elem_of_cons;
          [by left|right; by exists body]).
  all: by destruct (head (tail (faults w))) as [[]|].
Qed.

Lemma setup_all_indices_run self w :
  (head (faults w) = Some true ∧
   setup_all_indices self w
   = (Ok false,
      add_log ERROR (MsgConnectFailed TransportError)
        (add_request ReqInfo (add_log INFO MsgStarting w)))) ∨
  (next_ok w ∧
   ∃ b1 b2 b3 b4 w1 w2 w3 w4,
     create_index self "regulations" "regulations.json" (connected w)
       = (Ok b1, w1) ∧
     create_index self "permits" "permits.json" w1 = (Ok b2, w2) ∧
     create_index self "inspections" "inspections.json" w2 = (Ok b3, w3) ∧
     create_index self "compliance_events" "compliance_events.json" w3
       = (Ok b4, w4) ∧
     setup_all_indices self w
     = (Ok (b1 && b2 && b3 && b4),
        if b1 && b2 && b3 && b4 then add_log INFO MsgAllCreated w4
        else add_log ERROR MsgSomeFailed w4)).
Proof.
  destruct (decide (head (faults w) = Some true)) as [Hf | Hf].
  { left. split; [done|]. by apply setup_all_indices_down. }
  right. split; [done|].
  assert (Htc : test_connection self (add_log INFO MsgStarting w)
    = (Ok true, add_log INFO (MsgConnected (cluster_version w))
                  (add_request ReqInfo (add_log INFO MsgStarting w)))).
  { rewrite test_connection_cases. unfold test_connection_result. simpl.
    by destruct (head (faults w)) as [[]|]. }
  destruct (create_index_total self "regulations" "regulations.json"
              (connected w)) as (b1 & w1 & H1).
  destruct (create_index_total self "permits" "permits.json" w1)
    as (b2 & w2 & H2).
  destruct (create_index_total self "inspections" "inspections.json" w2)
    as (b3 & w3 & H3).
  destruct (create_index_total self "compliance_events"
              "compliance_events.json" w3) as (b4 & w4 & H4).
  exists b1, b2, b3, b4, w1, w2, w3, w4. split_and!; try done.
  by apply (setup_all_indices_chain _ _ _ _ _ _ _ _ _ _ _ Htc H1 H2 H3 H4).
Qed.

Lemma create_index_true_present self index_name schema_file w w' :
  create_index self index_name schema_file w = (Ok true, w') →
  is_Some (cluster w' !! index_name).
Proof.
  rewrite create_index_cases. unfold create_index_result.
  destruct (files w !! path_join (indices_dir self) schema_file)
    as [[|doc]|]; simpl; [done| |done].
  destruct (head (faults w)) as [[]|]; simpl; [done| |].
  all: destruct (cluster w !! index_name) as [b|] eqn:Hc; simpl;
    [intros [= <-]; simpl; by eauto|].
  all: destruct doc as [| | | | |body]; simpl; try done.
  all: destruct (head (tail (faults w))) as [[]|]; simpl; try done.
  all: intros [= <-]; simpl; rewrite lookup_insert_eq; by eauto.
Qed.

(** X7. [setup_all_indices] never raises, and its result can be
    trusted: after true all four indices are in the cluster and the
    last line logged is the success line; after false the last line is
    an error, either the failed connection or the aggregate failure. *)
Theorem setup_all_indices_result_meaning self w :
  let out := setup_all_indices self w in
  match out.1 with
  | Ok true =>
      (∀ n, n ∈ index_names → is_Some (cluster out.2 !! n)) ∧
      last (log out.2) = Some (INFO, MsgAllCreated)
  | Ok false =>
      last (log out.2) = Some (ERROR, MsgConnectFailed TransportError) ∨
      last (log out.2) = Some (ERROR, MsgSomeFailed)
  | Raise _ => False
  end.
Proof.
  simpl.
  destruct (setup_all_indices_run self w)
    as [[_ ->] | (_ & b1 & b2 & b3 & b4 & w1 & w2 & w3 & w4
                  & H1 & H2 & H3 & H4 & ->)]; simpl.
  { left. apply last_snoc. }
  destruct b1, b2, b3, b4; simpl; try (right; apply last_snoc).
  split; [|apply last_snoc].
  pose proof (create_index_true_present _ _ _ _ _ H1) as [x1 P1].
  pose proof (create_index_true_present _ _ _ _ _ H2) as [x2 P2].
  pose proof (create_index_true_present _ _ _ _ _ H3) as [x3 P3].
  pose proof (create_index_true_present _ _ _ _ _ H4) as P4.
  pose proof (λ m b, create_index_keeps _ _ _ _ _ _ m b H2) as G2.
  pose proof (λ m b, create_index_keeps _ _ _ _ _ _ m b H3) as G3.
  pose proof (λ m b, create_index_keeps _ _ _ _ _ _ m b H4) as G4.
  intros n Hin. unfold index_names in Hin.
  apply elem_of_cons in Hin as [-> | Hin]; [by eauto 6|].
  apply elem_of_cons in Hin as [-> | Hin]; [by eauto 6|].
  apply elem_of_cons in Hin as [-> | Hin]; [by eauto 6|].
  apply elem_of_cons in Hin as [-> | Hin]; [done|].
  by apply elem_of_nil in Hin.
Qed.

(** X8. What [setup_all_indices] sends: the info request first, then
    at most eight more requests, each of them the existence check of
    one of the four indices or a creation call for one of them whose
    body is the object in that index's own schema file.  It never
    deletes and never lists. *)
Theorem setup_all_indices_footprint self w :
  let out := setup_all_indices self w in
  ∃ rs,
    requests out.2 = requests w ++ ReqInfo :: rs ∧
    (length rs ≤ 8)%nat ∧
    ∀ r, r ∈ rs →
         ∃ item, item ∈ index_schemas ∧
                 (r = ReqExists item.1 ∨
                  ∃ body,
                    r = ReqCreate item.1 body ∧
                    files w !! path_join (indices_dir self) item.2
                    = Some (Document (JObj body))).
Proof.
  simpl.
  destruct (setup_all_indices_run self w)
    as [[_ ->] | (_ & b1 & b2 & b3 & b4 & w1 & w2 & w3 & w4
                  & H1 & H2 & H3 & H4 & ->)]; simpl.
  { exists []. split; [done|]. split; [simpl; lia|].
    by intros r ?%elem_of_nil. }
  pose proof (create_index_sends self "regulations" "regulations.json"
                (connected w)) as (rs1 & R1 & L1 & K1).
  pose proof (create_index_sends self "permits" "permits.json" w1)
    as (rs2 & R2 & L2 & K2).
  pose proof (create_index_sends self "inspections" "inspections.json" w2)
    as (rs3 & R3 & L3 & K3).
  pose proof (create_index_sends self "compliance_events"
                "compliance_events.json" w3) as (rs4 & R4 & L4 & K4).
  pose proof (create_index_frame self "regulations" "regulations.json"
                (connected w)) as (F1 & _).
  pose proof (create_index_frame self "permits" "permits.json" w1)
    as (F2 & _).
  pose proof (create_index_frame self "inspections" "inspections.json" w2)
    as (F3 & _).
  rewrite H1 in R1, F1. rewrite H2 in R2, F2. rewrite H3 in R3, F3.
  rewrite H4 in R4. simpl in R1, R2, R3, R4, F1, F2, F3.
  rewrite F1 in K2. rewrite F2, F1 in K3. rewrite F3, F2, F1 in K4.
  simpl in K1.
  exists (rs1 ++ rs2 ++ rs3 ++ rs4). split_and!.
  - assert (Hreq : requests w4
                   = requests w ++ ReqInfo :: rs1 ++ rs2 ++ rs3 ++ rs4).
    { rewrite R4, R3, R2, R1. by rewrite <- !app_assoc. }
    by destruct (b1 && b2 && b3 && b4).
  - rewrite !length_app. lia.
  - intros r Hr. unfold index_schemas.
    apply elem_of_app in Hr as [Hr | Hr];
      [exists ("regulations", "regulations.json");
       split; [apply list_elem_of_here|by apply K1]|].
    apply elem_of_app in Hr as [Hr | Hr];
      [exists ("permits", "permits.json");
       split; [apply list_elem_of_further, list_elem_of_here|by apply K2]|].
    apply elem_of_app in Hr as [Hr | Hr];
      [exists ("inspections", "inspections.json");
       split; [do 2 apply list_elem_of_further; apply list_elem_of_here
              |by apply K3]|].
    exists ("compliance_events", "compliance_events.json").
    split; [do 3 apply list_elem_of_further; apply list_elem_of_here
           |by apply K4].
Qed.

(** X9. There is no rollback: once the cluster has answered the
    connectivity check, every index whose [create_index] returned true
    is in the cluster when [setup_all_indices] returns, also when
    another index failed and the aggregate result is false. *)
Theorem setup_all_indices_no_rollback self w (Hconn : next_ok w) :
  let out := setup_all_indices self w in
  ∃ b1 b2 b3 b4 w1 w2 w3 w4,
    create_index self "regulations" "regulations.json" (connected w)
      = (Ok b1, w1) ∧
    create_index self "permits" "permits.json" w1 = (Ok b2, w2) ∧
    create_index self "inspections" "inspections.json" w2 = (Ok b3, w3) ∧
    create_index self "compliance_events" "compliance_events.json" w3
      = (Ok b4, w4) ∧
    out.1 = Ok (b1 && b2 && b3 && b4) ∧
    (b1 = true → is_Some (cluster out.2 !! "regulations")) ∧
    (b2 = true → is_Some (cluster out.2 !! "permits")) ∧
    (b3 = true → is_Some (cluster out.2 !! "inspections")) ∧
    (b4 = true → is_Some (cluster out.2 !! "compliance_events")).
Proof.
  simpl.
  destruct (setup_all_indices_run self w)
    as [[Hf _] | (_ & b1 & b2 & b3 & b4 & w1 & w2 & w3 & w4
                  & H1 & H2 & H3 & H4 & Hrun)]; [done|].
  exists b1, b2, b3, b4, w1, w2, w3, w4. rewrite Hrun.
  pose proof (λ m b, create_index_keeps _ _ _ _ _ _ m b H2) as G2.
  pose proof (λ m b, create_index_keeps _ _ _ _ _ _ m b H3) as G3.
  pose proof (λ m b, create_index_keeps _ _ _ _ _ _ m b H4) as G4.
  assert (Hsame : cluster (if b1 && b2 && b3 && b4
                           then add_log INFO MsgAllCreated w4
                           else add_log ERROR MsgSomeFailed w4) = cluster w4)
    by (by destruct (b1 && b2 && b3 && b4)).
  simpl. rewrite Hsame. split_and!; try done.
  - intros ->. destruct (create_index_true_present _ _ _ _ _ H1) as [x P].
    by eauto 6.
  - intros ->. destruct (create_index_true_present _ _ _ _ _ H2) as [x P].
    by eauto 6.
  - intros ->. destruct (create_index_true_present _ _ _ _ _ H3) as [x P].
    by eauto 6.
  - intros ->. by apply (create_index_true_present _ _ _ _ _ H4).
Qed.

(** ** Running the operations one after another *)










Lemma delete_step_keeps self n u w :
  let out := delete_step self n u w in
  files out.2 = files w ∧ environ out.2 = environ w ∧
  (quiet w → quiet out.2).
Proof.
  simpl. rewrite delete_step_cases. unfold delete_step_result.
  destruct (head (faults w)) as [[]|]; simpl;
    try (split_and!; [done|done|by apply quiet_add_request]);
    (destruct (cluster w !! n); simpl;
     [|split_and!; [done|done|by apply quiet_add_request]]);
    (destruct (head (tail (faults w))) as [[]|]; simpl;
     (split_and!; [done|done|intros Hq; by do 2 apply quiet_add_request])).
Qed.

Lemma delete_loop_keeps self l w :
  let out := for_in l (delete_step self) tt w in
  files out.2 = files w ∧ environ out.2 = environ w ∧
  (quiet w → quiet out.2).
Proof.
  revert w. induction l as [|n l IH]; intros w; simpl; [done|].
  unfold bind.
  pose proof (delete_step_keeps self n tt w) as (Hf & He & Hq).
  destruct (delete_step self n tt w) as [[[]|e] w1]; simpl in *; [|done].
  destruct (IH w1) as (Hf' & He' & Hq').
  split_and!; [by rewrite Hf'|by rewrite He'|by auto].
Qed.

Lemma delete_all_indices_quiet self w :
  quiet w →
  ∃ w', delete_all_indices self w = (Ok tt, w') ∧
        quiet w' ∧ files w' = files w ∧
        (∀ n, n ∈ index_names → cluster w' !! n = None) ∧
        (∀ m, m ∉ index_names → cluster w' !! m = cluster w !! m).
Proof.
  intros Hq.
  destruct (delete_loop_quiet self index_names w Hq)
    as (w' & rs & Hloop & _ & _ & _ & Hnone).
  destruct (delete_loop_trail _ _ _ _ _ Hloop) as [(_ & _ & Hframe & _) _].
  pose proof (delete_loop_keeps self index_names w) as (Hf & _ & Hq').
  rewrite Hloop in Hf, Hq'. simpl in Hf, Hq'.
  exists w'. rewrite delete_all_indices_unfold. unfold try_except.
  rewrite Hloop. split_and!; auto.
Qed.

Lemma probed_facts l w :
  requests (probed l w) = requests w ++ (ReqExists <$> l) ∧
  cluster (probed l w) = cluster w ∧ log (probed l w) = log w ∧
  (quiet w → quiet (probed l w)).
Proof.
  revert w. induction l as [|n l IH]; intros w; simpl.
  - by rewrite app_nil_r.
  - destruct (IH (add_request (ReqExists n) w)) as (Hr & Hc & Hl & Hq).
    unfold probed in *. simpl. rewrite Hr, Hc, Hl. simpl.
    split_and!; [by rewrite <- app_assoc|done|done|].
    intros Hq0. by apply Hq, quiet_add_request.
Qed.

Lemma delete_loop_absent self l w :
  quiet w → (∀ n, n ∈ l → cluster w !! n = None) →
  for_in l (delete_step self) tt w = (Ok tt, probed l w).
Proof.
  revert w. induction l as [|n l IH]; intros w Hq Hnone; simpl; [done|].
  unfold bind. rewrite delete_step_cases. unfold delete_step_result.
  pose proof (quiet_next_ok _ Hq) as Hn. unfold next_ok in Hn.
  rewrite (Hnone n) by apply list_elem_of_here.
  assert (Hrest : for_in l (delete_step self) tt (add_request (ReqExists n) w)
                  = (Ok tt, probed l (add_request (ReqExists n) w))).
  { apply IH; [by apply quiet_add_request|].
    intros m Hm. simpl. by apply Hnone, list_elem_of_further. }
  by destruct (head (faults w)) as [[]|].
Qed.



(** X13. Deleting twice is harmless: when every request goes through,
    a second [delete_all_indices] sends the four existence checks and
    nothing else, logs nothing and leaves the cluster as the first run
    left it. *)
Theorem delete_all_indices_twice self w (Hquiet : quiet w) :
  let first := delete_all_indices self w in
  let second := delete_all_indices self first.2 in
  first.1 = Ok tt ∧ second.1 = Ok tt ∧
  issued first.2 second.2 = ReqExists <$> index_names ∧
  log second.2 = log first.2 ∧
  cluster second.2 = cluster first.2.
Proof.
  simpl.
  destruct (delete_all_indices_quiet self w Hquiet)
    as (w' & -> & Hq' & _ & Hgone & _). simpl.
  rewrite delete_all_indices_unfold. unfold try_except.
  rewrite (delete_loop_absent self index_names w' Hq' Hgone).
  destruct (probed_facts index_names w') as (Hr & Hc & Hl & _). simpl.
  split_and!; try done. by apply issued_app.
Qed.

(** ** Listing on its own *)

(** X14. [list_indices] never raises and sends the one wildcard
    request.  When that request fails it logs the error and nothing
    else; when it goes through it logs the header and then every index
    of the cluster once, and only those.  The cluster is as it was. *)
Theorem list_indices_report self w :
  let out := list_indices self w in
  out.1 = Ok tt ∧
  issued w out.2 = [ReqGet "*"] ∧
  cluster out.2 = cluster w ∧
  ∃ ls, log out.2 = log w ++ ls ∧
        if decide (head (faults w) = Some true)
        then ls = [(ERROR, MsgListFailed TransportError)]
        else ∃ names,
               ls = (INFO, MsgCurrentIndices) :: index_lines names ∧
               NoDup names ∧
               ∀ n, n ∈ names ↔ is_Some (cluster w !! n).
Proof.
  simpl. rewrite list_indices_cases. unfold list_indices_result.
  destruct (decide (head (faults w) = Some true)) as [Hf | Hf].
  - rewrite Hf. simpl. split_and!; try done; [by apply issued_app|].
    by eexists.
  - assert (Hres : ∃ ls,
      log (add_logs ((INFO, MsgCurrentIndices)
                       :: index_lines (keys (cluster w)))
             (add_request (ReqGet "*") w)) = log w ++ ls ∧
      ∃ names, ls = (INFO, MsgCurrentIndices) :: index_lines names ∧
               NoDup names ∧ ∀ n, n ∈ names ↔ is_Some (cluster w !! n)).
    { eexists. split; [done|]. exists (keys (cluster w)).
      split_and!; [done|apply keys_NoDup|apply elem_of_keys]. }
    destruct (head (faults w)) as [[]|]; [done| |]; simpl;
      (split_and!; try done; by apply issued_app).
Qed.

(** ** The entry point, continued *)

Lemma init_raises node_url_accepted w e :
  (__init__ node_url_accepted w).1 = Raise e → is_Exception e = true.
Proof.
  unfold __init__, Elasticsearch. unfold_monad.
  repeat (case_match; simpl in *; simplify_eq; try done);
    by intros [= <-].
Qed.

Lemma setup_all_indices_requests self w :
  ∃ rs, requests (setup_all_indices self w).2 = requests w ++ ReqInfo :: rs.
Proof.
  destruct (setup_all_indices_run self w)
    as [[_ ->] | (_ & b1 & b2 & b3 & b4 & w1 & w2 & w3 & w4
                  & H1 & H2 & H3 & H4 & ->)]; simpl.
  { by exists []. }
  pose proof (create_index_sends self "regulations" "regulations.json"
                (connected w)) as (rs1 & R1 & _).
  pose proof (create_index_sends self "permits" "permits.json" w1)
    as (rs2 & R2 & _).
  pose proof (create_index_sends self "inspections" "inspections.json" w2)
    as (rs3 & R3 & _).
  pose proof (create_index_sends self "compliance_events"
                "compliance_events.json" w3) as (rs4 & R4 & _).
  rewrite H1 in R1. rewrite H2 in R2. rewrite H3 in R3. rewrite H4 in R4.
  simpl in R1, R2, R3, R4.
  exists (rs1 ++ rs2 ++ rs3 ++ rs4).
  assert (Hreq : requests w4
                 = requests w ++ ReqInfo :: rs1 ++ rs2 ++ rs3 ++ rs4).
  { rewrite R4, R3, R2, R1. by rewrite <- !app_assoc. }
  by destruct (b1 && b2 && b3 && b4).
Qed.

Lemma setup_all_indices_total self w :
  ∃ b w', setup_all_indices self w = (Ok b, w').
Proof.
  destruct (setup_all_indices_run self w)
    as [[_ ->] | (_ & b1 & b2 & b3 & b4 & w1 & w2 & w3 & w4
                  & _ & _ & _ & _ & ->)]; eauto.
Qed.

(** X15. [main] ends in one of two ways.  When construction succeeds
    it returns normally whatever the cluster did: the info request was
    sent first and the wildcard listing last.  When construction raises
    it logs the failure and exits with status 1, and no request was
    sent.  No other exception leaves [main]. *)
Theorem main_outcome node_url_accepted w :
  let out := main node_url_accepted w in
  match (__init__ node_url_accepted w).1 with
  | Ok self =>
      out.1 = Ok tt ∧
      ∃ rs, issued w out.2 = ReqInfo :: rs ++ [ReqGet "*"]
  | Raise e =>
      out.1 = Raise (SystemExit 1) ∧
      requests out.2 = requests w ∧
      log out.2 = log w ++ [(ERROR, MsgSetupFailed e)]
  end.
Proof.
  simpl. pose proof (init_pure node_url_accepted w) as Hpure.
  pose proof (init_raises node_url_accepted w) as Hexn.
  unfold main, try_except, bind.
  destruct (__init__ node_url_accepted w) as [[self|e] w'];
    simpl in *; subst w'.
  - destruct (setup_all_indices_total self w) as (b & ws & Hs).
    pose proof (setup_all_indices_requests self w) as (rs & Hrs).
    rewrite Hs in Hrs |- *. simpl in Hrs.
    rewrite list_indices_cases. unfold list_indices_result.
    assert (Hi : ∀ w'', requests w'' = requests ws ++ [ReqGet "*"] →
                    issued w w'' = ReqInfo :: rs ++ [ReqGet "*"]).
    { intros w'' Hw. apply issued_app. rewrite Hw, Hrs.
      by rewrite <- app_assoc. }
    destruct (head (faults ws)) as [[]|]; simpl;
      (split; [done|]); exists rs; by apply Hi.
  - rewrite (Hexn e eq_refl). done.
Qed.

(** X16. An unreachable cluster does not make [main] fail: with a
    valid configuration and the info request failing, [main] returns
    normally; it has sent the info request and, all the same, the
    wildcard listing, and the cluster is as it was. *)
Theorem main_survives_unreachable node_url_accepted w url key
    (Hurl : environ w !! "ELASTICSEARCH_URL" = Some url)
    (Hkey : environ w !! "ELASTICSEARCH_API_KEY" = Some key)
    (Hune : url ≠ "") (Hkne : key ≠ "")
    (Hacc : node_url_accepted url = true)
    (Hdown : head (faults w) = Some true) :
  let out := main node_url_accepted w in
  out.1 = Ok tt ∧
  issued w out.2 = [ReqInfo; ReqGet "*"] ∧
  cluster out.2 = cluster w.
Proof.
  simpl. unfold main, try_except, bind.
  rewrite (init_configured _ _ _ _ Hurl Hkey Hune Hkne Hacc).
  rewrite (setup_all_indices_down _ _ Hdown).
  rewrite list_indices_cases. unfold list_indices_result. simpl.
  destruct (head (tail (faults w))) as [[]|]; simpl;
    (split_and!; try done; apply issued_app; simpl; by rewrite <- app_assoc).
Qed.

(** X17. A URL the client refuses fails construction with the client's
    own error, not the configuration error, and before any request;
    [main] turns it into exit status 1. *)
Theorem construction_rejected_url node_url_accepted w url key
    (Hurl : environ w !! "ELASTICSEARCH_URL" = Some url)
    (Hkey : environ w !! "ELASTICSEARCH_API_KEY" = Some key)
    (Hune : url ≠ "") (Hkne : key ≠ "")
    (Hrej : node_url_accepted url = false) :
  ∃ msg,
    __init__ node_url_accepted w = (Raise (ValueError msg), w) ∧
    ValueError msg ≠ config_error ∧
    (main node_url_accepted w).1 = Raise (SystemExit 1) ∧
    requests (main node_url_accepted w).2 = requests w.
Proof.
  assert (Hinit : __init__ node_url_accepted w
    = (Raise (ValueError
         "URL must include a 'scheme', 'host', and 'port' component"), w)).
  { unfold __init__, Elasticsearch. unfold_monad. rewrite Hurl, Hkey.
    destruct url as [|x url]; [done|]. destruct key as [|y key]; [done|].
    cbn [py_bool negb orb forallb]. rewrite Hrej. cbn [andb].
    destruct (contains ":" (String y key)) eqn:Hc; [|done].
    destruct (contains_first _ _ Hc) as (a & b & Heq & Ha).
    rewrite Heq, (split_at_first _ _ _ Ha).
    destruct (split_head ":" b) as (p & ps & ->). done. }
  eexists. split; [exact Hinit|]. split; [done|].
  unfold main, try_except, bind. rewrite Hinit. done.
Qed.

(** X18. The pair built from a key with a colon never invents text:
    neither part contains a colon, and the id, a colon and the secret
    make up the key or, when the key has further colons, the start of
    the key up to its second colon; what follows that colon is
    dropped. *)
Theorem api_key_pair_is_prefix node_url_accepted w url key
    (Hurl : environ w !! "ELASTICSEARCH_URL" = Some url)
    (Hkey : environ w !! "ELASTICSEARCH_API_KEY" = Some key)
    (Hune : url ≠ "") (Hkne : key ≠ "")
    (Hacc : node_url_accepted url = true)
    (Hcolon : contains ":" key = true) :
  ∃ self id secret,
    __init__ node_url_accepted w = (Ok self, w) ∧
    api_key (es self) = KeyPair id secret ∧
    contains ":" id = false ∧ contains ":" secret = false ∧
    (key = id +:+ ":" +:+ secret ∨
     ∃ rest, key = id +:+ ":" +:+ secret +:+ ":" +:+ rest).
Proof.
  destruct (contains_first _ _ Hcolon) as (id & tl & Heq & Hid).
  assert (Hpair : ∃ secret,
    pair_of_key key = KeyPair id secret ∧ contains ":" secret = false ∧
    (tl = secret ∨ ∃ rest, tl = secret +:+ ":" +:+ rest)).
  { unfold pair_of_key. rewrite Heq, (split_at_first _ _ _ Hid).
    destruct (contains ":" tl) eqn:Htl.
    - destruct (contains_first _ _ Htl) as (secret & rest & -> & Hs).
      rewrite (split_at_first _ _ _ Hs).
      exists secret. split_and!; [done|done|]. right. by exists rest.
    - rewrite (split_no_sep _ _ Htl). exists tl. split_and!; auto. }
  destruct Hpair as (secret & Hcred & Hsecret & Hshape).
  eexists _, id, secret.
  split; [by apply init_configured|]. simpl. rewrite Hcolon.
  split_and!; try done.
  destruct Hshape as [<- | (rest & ->)]; [by left|right].
  exists rest. by rewrite Heq.
Qed.

(** ** The further properties at concrete worlds *)


Lemma start_quiet fs c : quiet (start fs c).
Proof. unfold quiet. simpl. constructor. Qed.

Lemma test_connection_never_raises_witness :
  (test_connection a_self unreachable).1 = Ok false ∧
  issued unreachable (test_connection a_self unreachable).2 = [ReqInfo].
Proof.
  destruct (test_connection_never_raises a_self unreachable)
    as (b & _ & _ & Hreq & _).
  split; [reflexivity|exact Hreq].
Defined.

Lemma create_index_footprint_witness :
  ∃ b l m,
    (create_index a_self "regulations" "regulations.json" refusing).1 = Ok b ∧
    log (create_index a_self "regulations" "regulations.json" refusing).2
    = [(l, m)] ∧
    (b = false ↔ l = ERROR).
Proof.
  destruct (create_index_footprint a_self "regulations" "regulations.json"
              refusing) as (b & l & m & rs & Hres & Hlog & Hiff & _).
  exists b, l, m. split; [exact Hres|]. split; [exact Hlog|exact Hiff].
Defined.



Lemma create_index_non_object_witness :
  (create_index a_self "permits" "permits.json" (listed ∅)).1 = Ok false ∧
  (create_index a_self "permits" "permits.json"
     (listed {[ "permits" := a_schema ]})).1 = Ok true.
Proof.
  split.
  - destruct (create_index_non_object a_self "permits" "permits.json"
                (JArr [JNum 1]) (listed ∅)) as (Hres & _);
      [vm_compute; reflexivity|discriminate
      |unfold next_ok; simpl; discriminate|].
    rewrite Hres. vm_compute. reflexivity.
  - destruct (create_index_non_object a_self "permits" "permits.json"
                (JArr [JNum 1]) (listed {[ "permits" := a_schema ]}))
      as (Hres & _);
      [vm_compute; reflexivity|discriminate
      |unfold next_ok; simpl; discriminate|].
    rewrite Hres. vm_compute. reflexivity.
Defined.

Lemma setup_all_indices_result_meaning_witness :
  let out := setup_all_indices a_self unprovisioned in
  out.1 = Ok true ∧
  is_Some (cluster out.2 !! "permits") ∧
  last (log out.2) = Some (INFO, MsgAllCreated).
Proof.
  simpl.
  assert (Hrun : (setup_all_indices a_self unprovisioned).1 = Ok true)
    by (vm_compute; reflexivity).
  pose proof (setup_all_indices_result_meaning a_self unprovisioned) as Hm.
  simpl in Hm. rewrite Hrun in Hm. destruct Hm as [Hall Hlast].
  split; [exact Hrun|]. split; [|exact Hlast].
  apply Hall, list_elem_of_further, list_elem_of_here.
Defined.

Lemma setup_all_indices_footprint_witness :
  ∃ rs,
    requests (setup_all_indices a_self refusing).2 = ReqInfo :: rs ∧
    (length rs ≤ 8)%nat.
Proof.
  destruct (setup_all_indices_footprint a_self refusing)
    as (rs & Hrs & Hlen & _).
  exists rs. split; [exact Hrs|exact Hlen].
Defined.

Lemma setup_all_indices_no_rollback_witness :
  next_ok refusing ∧
  ∃ b1 b2 b3 b4,
    (setup_all_indices a_self refusing).1 = Ok (b1 && b2 && b3 && b4) ∧
    (b2 = true →
     is_Some (cluster (setup_all_indices a_self refusing).2 !! "permits")).
Proof.
  assert (Hn : next_ok refusing) by (unfold next_ok; simpl; discriminate).
  split; [exact Hn|].
  destruct (setup_all_indices_no_rollback a_self refusing Hn)
    as (b1 & b2 & b3 & b4 & w1 & w2 & w3 & w4 & _ & _ & _ & _
        & Hres & _ & Hp & _).
  exists b1, b2, b3, b4. split; [exact Hres|exact Hp].
Defined.




Lemma delete_all_indices_twice_witness :
  let first := delete_all_indices a_self provisioned in
  let second := delete_all_indices a_self first.2 in
  issued first.2 second.2 = ReqExists <$> index_names ∧
  cluster second.2 = cluster first.2.
Proof.
  simpl.
  destruct (delete_all_indices_twice a_self provisioned (start_quiet _ _))
    as (_ & _ & Hreq & _ & Hcl).
  split; [exact Hreq|exact Hcl].
Defined.

Lemma list_indices_report_witness :
  (list_indices a_self unreachable).1 = Ok tt ∧
  issued unreachable (list_indices a_self unreachable).2 = [ReqGet "*"] ∧
  cluster (list_indices a_self provisioned).2 = cluster provisioned.
Proof.
  destruct (list_indices_report a_self unreachable) as (Hres & Hreq & _).
  destruct (list_indices_report a_self provisioned) as (_ & _ & Hcl & _).
  split; [exact Hres|]. split; [exact Hreq|exact Hcl].
Defined.

Lemma main_survives_unreachable_witness :
  (main (λ _, true) configured_down).1 = Ok tt ∧
  issued configured_down (main (λ _, true) configured_down).2
  = [ReqInfo; ReqGet "*"].
Proof.
  destruct (main_survives_unreachable (λ _, true) configured_down
              "https://localhost:9200" "id:secret") as (Hres & Hreq & _);
    [vm_compute; reflexivity|vm_compute; reflexivity
    |discriminate|discriminate|reflexivity|reflexivity|].
  split; [exact Hres|exact Hreq].
Defined.

Lemma construction_rejected_url_witness :
  (main (λ _, false) (configured "localhost" "id:secret")).1
  = Raise (SystemExit 1) ∧
  requests (main (λ _, false) (configured "localhost" "id:secret")).2 = [].
Proof.
  destruct (construction_rejected_url (λ _, false)
              (configured "localhost" "id:secret") "localhost" "id:secret")
    as (msg & _ & _ & Hexit & Hreq);
    [vm_compute; reflexivity|vm_compute; reflexivity
    |discriminate|discriminate|reflexivity|].
  split; [exact Hexit|exact Hreq].
Defined.

Lemma api_key_pair_is_prefix_witness :
  ∃ self id secret,
    __init__ (λ _, true) (configured "https://localhost:9200" "a:b:c")
    = (Ok self, configured "https://localhost:9200" "a:b:c") ∧
    api_key (es self) = KeyPair id secret ∧
    contains ":" secret = false.
Proof.
  destruct (api_key_pair_is_prefix (λ _, true)
              (configured "https://localhost:9200" "a:b:c")
              "https://localhost:9200" "a:b:c")
    as (self & id & secret & Hrun & Hcred & _ & Hsecret & _);
    [vm_compute; reflexivity|vm_compute; reflexivity
    |discriminate|discriminate|reflexivity|reflexivity|].
  exists self, id, secret.
  split; [exact Hrun|]. split; [exact Hcred|exact Hsecret].
Defined.
